(** * Branch setup and prompt preparation of the GitHub action

    A shallow embedding of three pieces of the action:
    - [setupBranch]            (github/operations/branch.ts),
    - [determineBranchWithAI]  (the AI branch advisor),
    - [prepareContext] and [buildDisallowedToolsString]
                               (src/create-prompt/index.ts).

    JavaScript strings are modelled by [string] (8-bit characters); the
    development therefore speaks about ASCII branch names, which is what
    the hosting service hands out for the names built here.  Numbers that
    the code only ever uses as non-negative integers (entity numbers,
    commit counts, calendar fields) are [N] or [Z].  [console.log] has no
    influence on any result and is left out. *)

From Stdlib Require Import String Ascii List Bool NArith ZArith Lia.
From Stdlib Require Import DecimalString DecimalPos.
From Stdlib Require DecimalN.
Import ListNotations.
Open Scope string_scope.
Open Scope list_scope.

Set Implicit Arguments.

(* ===================================================================== *)
(** ** JavaScript values used by the code *)
(* ===================================================================== *)

(** [if (s)] on a value of type [string | undefined]: [undefined] and the
    empty string are falsy, everything else is truthy. *)
Definition truthy (s : option string) : bool :=
  match s with
  | Some s' => negb (s' =? "")
  | None => false
  end.

(** [...(x && { x })]: the field is present only for a truthy [x]. *)
Definition spread (s : option string) : option string :=
  if truthy s then s else None.

(** [a || b] on strings. *)
Definition or_else (s : option string) (d : string) : string :=
  match s with
  | Some s' => if s' =? "" then d else s'
  | None => d
  end.

(** [Number.prototype.toString] / template interpolation of a
    non-negative integer. *)
Definition toString (n : N) : string :=
  NilEmpty.string_of_uint (N.to_uint n).

(** [String.prototype.toLowerCase], on ASCII. *)
Definition toLowerCase_ascii (c : ascii) : ascii :=
  let n := nat_of_ascii c in
  if (65 <=? n)%nat && (n <=? 90)%nat then ascii_of_nat (n + 32) else c.

Fixpoint toLowerCase (s : string) : string :=
  match s with
  | EmptyString => EmptyString
  | String c r => String (toLowerCase_ascii c) (toLowerCase r)
  end.

Definition isUpperCase (c : ascii) : bool :=
  let n := nat_of_ascii c in (65 <=? n)%nat && (n <=? 90)%nat.

(** [String.prototype.padStart(n, c)] for a one-character filler. *)
Fixpoint fill (n : nat) (c : ascii) (s : string) : string :=
  match n with
  | O => s
  | S n' => String c (fill n' c s)
  end.

Definition padStart (n : nat) (c : ascii) (s : string) : string :=
  fill (n - String.length s) c s.

(** [Array.prototype.join]. *)
Fixpoint join (sep : string) (l : list string) : string :=
  match l with
  | [] => ""
  | [x] => x
  | x :: r => x ++ sep ++ join sep r
  end.

(** [Array.prototype.includes] on an array of strings. *)
Definition includes (l : list string) (x : string) : bool :=
  existsb (String.eqb x) l.

(** [String.prototype.trim], on ASCII white space. *)
Definition isWhiteSpace (c : ascii) : bool :=
  let n := nat_of_ascii c in
  (n =? 32)%nat || ((9 <=? n)%nat && (n <=? 13)%nat).

Fixpoint trimStart (s : string) : string :=
  match s with
  | EmptyString => EmptyString
  | String c r => if isWhiteSpace c then trimStart r else s
  end.

Fixpoint trimEnd (s : string) : string :=
  match s with
  | EmptyString => EmptyString
  | String c r =>
      match trimEnd r with
      | EmptyString => if isWhiteSpace c then EmptyString else String c EmptyString
      | r' => String c r'
      end
  end.

Definition trim (s : string) : string := trimEnd (trimStart s).

(** Membership of a character in a string. *)
Fixpoint InStr (c : ascii) (s : string) : Prop :=
  match s with
  | EmptyString => False
  | String d r => c = d \/ InStr c r
  end.

(* ===================================================================== *)
(** ** Effects: the shell, the action outputs, the remote services *)
(* ===================================================================== *)

(** The three git invocations of branch.ts. *)
Inductive GitCmd : Type :=
| GitFetch (depth : Z) (branch : string)  (* git fetch origin --depth=D B *)
| GitCheckout (branch : string)           (* git checkout B *)
| GitCheckoutNew (branch : string).       (* git checkout -b B *)

Inductive Exception : Type :=
| Error (message : string)
| TypeError (message : string)
| ShellError (command : GitCmd)
| RequestError (message : string).

(** A settled promise of a remote call. *)
Inductive Settled (A : Type) : Type :=
| Resolved (a : A)
| Rejected (e : Exception).
Arguments Resolved {A} a.
Arguments Rejected {A} e.

(** A content block of a completion response. *)
Inductive ContentBlock : Type :=
| TextBlock (text : string)
| OtherBlock (type : string).

Module Date.
Record t : Type := mk
  { getFullYear : N;
    getMonth : N;      (* 0 .. 11 *)
    getDate : N;
    getHours : N;
    getMinutes : N }.
End Date.

(** Everything the run observes from outside.  [repos_get] is indexed by
    the number of earlier calls, since the advisor may ask twice and the
    hosting service need not answer twice alike. *)
Record Env : Type := mkEnv
  { git_status : GitCmd -> bool;                  (* true = exit status 0 *)
    repos_get : nat -> Settled string;            (* data.default_branch *)
    git_getRef : string -> Settled string;        (* data.object.sha *)
    repos_listBranches : Settled (list string);   (* branch names *)
    ANTHROPIC_API_KEY : option string;
    CLAUDE_CODE_OAUTH_TOKEN : option string;
    messages_create : string -> string -> Settled (list ContentBlock);
    now : Date.t }.

(** What a run leaves behind: the git commands it issued, in order, the
    outputs it set, and how often it asked for the repository. *)
Record World : Type := mkWorld
  { shell : list GitCmd;
    outputs : list (string * string);
    repos_get_calls : nat }.

Definition init : World := mkWorld [] [] 0.

(** One more call to repos.get. *)
Definition bump (w : World) : World :=
  mkWorld (shell w) (outputs w) (S (repos_get_calls w)).

Inductive Outcome (A : Type) : Type :=
| Returned (a : A)
| Thrown (e : Exception)
| Exited (code : Z).
Arguments Returned {A} a.
Arguments Thrown {A} e.
Arguments Exited {A} code.

Definition M (A : Type) : Type := World -> Outcome A * World.

Definition ret {A} (a : A) : M A := fun w => (Returned a, w).

Definition bind {A B} (m : M A) (k : A -> M B) : M B :=
  fun w =>
    match m w with
    | (Returned a, w') => k a w'
    | (Thrown e, w') => (Thrown e, w')
    | (Exited c, w') => (Exited c, w')
    end.

Definition throw {A} (e : Exception) : M A := fun w => (Thrown e, w).

(** [process.exit(code)]. *)
Definition process_exit {A} (code : Z) : M A := fun w => (Exited code, w).

(** [try { m } catch (error) { h error }]. *)
Definition try_catch {A} (m : M A) (h : Exception -> M A) : M A :=
  fun w =>
    match m w with
    | (Thrown e, w') => h e w'
    | r => r
    end.

Declare Scope js_scope.
Delimit Scope js_scope with js.
Notation "x <- m ;; k" := (bind m (fun x => k))
  (at level 61, m at next level, right associativity) : js_scope.
Notation "m ;; k" := (bind m (fun _ => k))
  (at level 61, right associativity) : js_scope.
Open Scope js_scope.

Definition await {A} (p : Settled A) : M A :=
  match p with
  | Resolved a => ret a
  | Rejected e => throw e
  end.

Section Effects.
Variable env : Env.

(** [await $`git ...`]: the command is issued; a non-zero exit status
    throws. *)
Definition git (c : GitCmd) : M unit :=
  fun w =>
    let w' := mkWorld (shell w ++ [c]) (outputs w) (repos_get_calls w) in
    if git_status env c then (Returned tt, w') else (Thrown (ShellError c), w').

(** [core.setOutput(name, value)]. *)
Definition setOutput (name value : string) : M unit :=
  fun w =>
    (Returned tt,
     mkWorld (shell w) (outputs w ++ [(name, value)]) (repos_get_calls w)).

(** [(await octokits.rest.repos.get({owner, repo})).data.default_branch]. *)
Definition octokit_repos_get : M string :=
  fun w =>
    await (repos_get env (repos_get_calls w)) (bump w).

Definition octokit_getRef (ref : string) : M string :=
  await (git_getRef env ref).

Definition octokit_listBranches : M (list string) :=
  await (repos_listBranches env).

Definition anthropic_messages_create (system user : string)
  : M (list ContentBlock) :=
  await (messages_create env system user).
End Effects.

(* ===================================================================== *)
(** ** Data handed to the action *)
(* ===================================================================== *)

Module Repository.
Record t : Type := mk
  { owner : string;
    repo : string;
    full_name : string }.
End Repository.

(** [context.inputs]. *)
Module Inputs.
Record t : Type := mk
  { triggerPhrase : option string;
    assigneeTrigger : option string;
    labelTrigger : option string;
    customInstructions : option string;
    allowedTools : list string;
    disallowedTools : list string;
    directPrompt : option string;
    baseBranch : option string;
    baseBranchPrompt : option string;
    branchPrefix : string;
    useTimestampSuffix : bool;
    useCommitSigning : bool }.
End Inputs.

(** The fields of [context.payload] that prepareContext reads. *)
Module Payload.
Record Comment : Type := mkComment
  { id : N;
    body : string;
    user_login : string }.

Record Review : Type := mkReview
  { review_body : option string;     (* string | null *)
    review_user_login : string }.

Inductive t : Type :=
| IssueComment (comment : Comment)
| PullRequestReview (review : Review)
| PullRequestReviewComment (comment : Comment)
| Issues (issue_user_login : string)
| PullRequest
| Other.
End Payload.

Module Context.
Record t : Type := mk
  { repository : Repository.t;
    eventName : string;
    eventAction : option string;
    entityNumber : N;
    isPR : bool;
    inputs : Inputs.t;
    payload : Payload.t }.
End Context.

(** [githubData.contextData]: a pull request or an issue. *)
Module GitHubPullRequest.
Record t : Type := mk
  { title : string;
    body : option string;
    state : string;               (* OPEN, CLOSED or MERGED *)
    headRefName : string;
    baseRefName : string;
    commits_totalCount : Z }.
End GitHubPullRequest.

Module GitHubIssue.
Record t : Type := mk
  { title : string;
    body : option string;
    state : string }.
End GitHubIssue.

Inductive ContextData : Type :=
| PullRequestData (pr : GitHubPullRequest.t)
| IssueData (issue : GitHubIssue.t).

Definition contextData_title (d : ContextData) : string :=
  match d with
  | PullRequestData pr => GitHubPullRequest.title pr
  | IssueData i => GitHubIssue.title i
  end.

Definition contextData_body (d : ContextData) : option string :=
  match d with
  | PullRequestData pr => GitHubPullRequest.body pr
  | IssueData i => GitHubIssue.body i
  end.

Definition contextData_state (d : ContextData) : string :=
  match d with
  | PullRequestData pr => GitHubPullRequest.state pr
  | IssueData i => GitHubIssue.state i
  end.

(** The result of [setupBranch]. *)
Module BranchInfo.
Record t : Type := mk
  { baseBranch : string;
    claudeBranch : option string;
    currentBranch : string }.
End BranchInfo.

(* ===================================================================== *)
(** ** branch.ts: setupBranch *)
(* ===================================================================== *)

Section SetupBranch.
Variable env : Env.

(** Lines 43-68: the open pull request. *)
Definition checkoutPR (prData : GitHubPullRequest.t) : M BranchInfo.t :=
  let branchName := GitHubPullRequest.headRefName prData in
  let commitCount := GitHubPullRequest.commits_totalCount prData in
  let fetchDepth := Z.max commitCount 20 in
  git env (GitFetch fetchDepth branchName) ;;
  git env (GitCheckout branchName) ;;
  let baseBranch := GitHubPullRequest.baseRefName prData in
  ret (BranchInfo.mk baseBranch None branchName).

(** Lines 76-103: the source branch.  The prompt arm is the placeholder
    of the source: it announces the advisor and asks for the default
    branch. *)
Definition sourceBranch (context : Context.t) : M string :=
let baseBranch := Inputs.baseBranch (Context.inputs context) in
let baseBranchPrompt := Inputs.baseBranchPrompt (Context.inputs context) in
let otherwise : M string :=
  if truthy baseBranchPrompt then octokit_repos_get env
  else octokit_repos_get env in
match baseBranch with
| Some b => if b =? "" then otherwise else ret b
| None => otherwise
end.

(** Line 119: yyyymmdd-hhmm. *)
Definition timestamp (d : Date.t) : string :=
  toString (Date.getFullYear d)
  ++ padStart 2 "0" (toString (Date.getMonth d + 1))
  ++ padStart 2 "0" (toString (Date.getDate d))
  ++ "-"
  ++ padStart 2 "0" (toString (Date.getHours d))
  ++ padStart 2 "0" (toString (Date.getMinutes d)).

(** Line 106. *)
Definition entityType (context : Context.t) : string :=
  if Context.isPR context then "pr" else "issue".

(** Lines 116-126. *)
Definition branchName (context : Context.t) : string :=
  let i := Context.inputs context in
  if Inputs.useTimestampSuffix i then
    Inputs.branchPrefix i ++ entityType context ++ "-"
    ++ toString (Context.entityNumber context) ++ "-" ++ timestamp (now env)
  else
    Inputs.branchPrefix i ++ entityType context ++ "-"
    ++ toString (Context.entityNumber context).

(** Line 133. *)
Definition newBranch (branchName : string) : string :=
  substring 0 50 (toLowerCase branchName).

(** Lines 72-185: a new branch for an issue or a closed pull request. *)
Definition createBranch (context : Context.t) : M BranchInfo.t :=
  sourceBranch <- sourceBranch context ;;
  let newBranch := newBranch (branchName context) in
  try_catch
    (currentSHA <- octokit_getRef env ("heads/" ++ sourceBranch) ;;
     if Inputs.useCommitSigning (Context.inputs context) then
       setOutput "CLAUDE_BRANCH" newBranch ;;
       setOutput "BASE_BRANCH" sourceBranch ;;
       ret (BranchInfo.mk sourceBranch (Some newBranch) sourceBranch)
     else
       git env (GitCheckoutNew newBranch) ;;
       setOutput "CLAUDE_BRANCH" newBranch ;;
       setOutput "BASE_BRANCH" sourceBranch ;;
       ret (BranchInfo.mk sourceBranch (Some newBranch) newBranch))
    (fun error => process_exit 1).

Definition closedOrMerged (prState : string) : bool :=
  (prState =? "CLOSED") || (prState =? "MERGED").

(** Lines 22-186.  [githubData.contextData as GitHubPullRequest] is a
    cast: on an issue snapshot the read of [commits.totalCount] is a
    TypeError. *)
Definition setupBranch (contextData : ContextData) (context : Context.t)
  : M BranchInfo.t :=
  if Context.isPR context then
    if closedOrMerged (contextData_state contextData) then
      createBranch context
    else
      match contextData with
      | PullRequestData prData => checkoutPR prData
      | IssueData _ =>
          throw (TypeError "undefined is not an object (evaluating 'prData.commits.totalCount')")
      end
  else createBranch context.
End SetupBranch.

(* ===================================================================== *)
(** ** The AI branch advisor: determineBranchWithAI *)
(* ===================================================================== *)

Section Advisor.
Variable env : Env.

(** Line feed, for the [\n] of the templates. *)
Definition LF : string := String (ascii_of_nat 10) EmptyString.

(** Lines 960-966. *)
Definition getDefaultBranch : M string := octokit_repos_get env.

(** Lines 896-903. *)
Definition entityContext (contextData : ContextData) (context : Context.t)
  : string :=
  if Context.isPR context then
    "PR #" ++ toString (Context.entityNumber context) ++ ": "
    ++ contextData_title contextData ++ LF
    ++ or_else (contextData_body contextData) ""
  else
    "Issue #" ++ toString (Context.entityNumber context) ++ ": "
    ++ contextData_title contextData ++ LF
    ++ or_else (contextData_body contextData) "".

(** Lines 906-922. *)
Definition systemPrompt (context : Context.t) (prompt defaultBranch : string)
           (branches : list string) : string :=
  let r := Context.repository context in
  "You are a Git branch expert helping determine the appropriate base branch for a new feature branch.

" ++ prompt ++ "

Repository context:
- Repository: " ++ Repository.owner r ++ "/" ++ Repository.repo r ++ "
- Default branch: " ++ defaultBranch ++ "
- Available branches: " ++ join ", " branches ++ "

Your task is to analyze the issue/PR context and determine the most appropriate base branch. Consider factors like:
- Branch naming conventions
- Development workflow patterns
- Feature vs hotfix branches
- Release branches
- The content and purpose of the issue/PR

Respond with ONLY the branch name, nothing else.".

(** Lines 925-928. *)
Definition userPrompt (contextData : ContextData) (context : Context.t)
  : string :=
  let entityType := if Context.isPR context then "pull_request" else "issue" in
  (if entityType =? "pull_request" then "Pull Request" else "Issue")
  ++ " #" ++ toString (Context.entityNumber context) ++ ":" ++ LF
  ++ entityContext contextData context ++ LF ++ LF
  ++ "Based on the above " ++ entityType
  ++ " details, which branch should be used as the base branch?".

(** Lines 931-938: the one completion request. *)
Definition completion (contextData : ContextData) (context : Context.t)
           (prompt defaultBranch : string) (branches : list string)
  : M (list ContentBlock) :=
  anthropic_messages_create env
    (systemPrompt context prompt defaultBranch branches)
    (userPrompt contextData context).

(** Lines 940-942: [response.content[0]?.type === "text" ? ... : ...]. *)
Definition suggestion (content : list ContentBlock) (defaultBranch : string)
  : string :=
  match content with
  | TextBlock text :: _ => trim text
  | _ => defaultBranch
  end.

(** Lines 847-958. *)
Definition determineBranchWithAI (contextData : ContextData)
           (context : Context.t) (prompt : string) : M string :=
  try_catch
    (let anthropicApiKey := ANTHROPIC_API_KEY env in
     let claudeCodeOAuthToken := CLAUDE_CODE_OAUTH_TOKEN env in
     if negb (truthy anthropicApiKey) && negb (truthy claudeCodeOAuthToken)
     then getDefaultBranch
     else
       defaultBranch <- octokit_repos_get env ;;
       branches <- octokit_listBranches env ;;
       content <- completion contextData context prompt defaultBranch
                    branches ;;
       let branchName := suggestion content defaultBranch in
       if includes branches branchName then ret branchName
       else ret defaultBranch)
    (fun error => getDefaultBranch).
End Advisor.

(** A completion that carries no branch name: no content, a first block
    that is not text, or text that trims to nothing. *)
Definition noAnswer (content : list ContentBlock) : bool :=
  match content with
  | TextBlock text :: _ => trim text =? ""
  | _ => true
  end.

(** Line 858: some credential is at hand. *)
Definition authenticated (env : Env) : bool :=
  negb (negb (truthy (ANTHROPIC_API_KEY env))
        && negb (truthy (CLAUDE_CODE_OAUTH_TOKEN env))).

(* ===================================================================== *)
(** ** create-prompt/index.ts: the tool lists and prepareContext *)
(* ===================================================================== *)

Definition DISALLOWED_TOOLS : list string := ["WebSearch"; "WebFetch"].

(** Lines 90-112.  An absent array and an empty one take the same arms. *)
Definition buildDisallowedToolsString
           (customDisallowedTools allowedTools : option (list string))
  : string :=
  let disallowedTools :=
    match allowedTools with
    | Some (a :: l) =>
        filter (fun tool => negb (includes (a :: l) tool)) DISALLOWED_TOOLS
    | _ => DISALLOWED_TOOLS
    end in
  let allDisallowedTools := join "," disallowedTools in
  match customDisallowedTools with
  | Some (c :: l) =>
      if negb (allDisallowedTools =? "")
      then allDisallowedTools ++ "," ++ join "," (c :: l)
      else join "," (c :: l)
  | _ => allDisallowedTools
  end.

Module CommonFields.
Record t : Type := mk
  { repository : string;
    claudeCommentId : string;
    triggerPhrase : string;
    triggerUsername : option string;
    customInstructions : option string;
    allowedTools : option string;
    disallowedTools : option string;
    directPrompt : option string;
    claudeBranch : option string }.
End CommonFields.

(** The variants of [EventData], one per object literal of prepareContext. *)
Inductive EventData : Type :=
| PullRequestReviewCommentEvent
    (prNumber : string) (commentId : option string) (commentBody : string)
    (claudeBranch baseBranch : option string)
| PullRequestReviewEvent
    (prNumber commentBody : string) (claudeBranch baseBranch : option string)
| IssueCommentOnPREvent
    (commentId prNumber commentBody : string)
    (claudeBranch baseBranch : option string)
| IssueCommentEvent
    (commentId claudeBranch baseBranch issueNumber commentBody : string)
| IssueAssignedEvent
    (issueNumber baseBranch claudeBranch : string)
    (assigneeTrigger : option string)
| IssueLabeledEvent
    (issueNumber baseBranch claudeBranch labelTrigger : string)
| IssueOpenedEvent
    (issueNumber baseBranch claudeBranch : string)
| PullRequestEvent
    (eventAction : option string) (prNumber : string)
    (claudeBranch baseBranch : option string).

Module PreparedContext.
Record t : Type := mk
  { commonFields : CommonFields.t;
    eventData : EventData }.
End PreparedContext.

(** A synchronous function that returns or throws. *)
Inductive Result (A : Type) : Type :=
| Ok (a : A)
| Throw (e : Exception).
Arguments Ok {A} a.
Arguments Throw {A} e.

(** Modelled from the spec: the type guards of github/context
    ([isIssueCommentEvent] and its siblings), which lines 141-154 use to
    read the payload, are not among the sources at hand; each one holds
    exactly for a context that carries the payload of its event. *)
Definition triggerUsername (p : Payload.t) : option string :=
  match p with
  | Payload.IssueComment c => Some (Payload.user_login c)
  | Payload.PullRequestReview r => Some (Payload.review_user_login r)
  | Payload.PullRequestReviewComment c => Some (Payload.user_login c)
  | Payload.Issues login => Some login
  | _ => None
  end.

Definition commentId (p : Payload.t) : option string :=
  match p with
  | Payload.IssueComment c => Some (toString (Payload.id c))
  | Payload.PullRequestReviewComment c => Some (toString (Payload.id c))
  | _ => None
  end.

Definition commentBody (p : Payload.t) : option string :=
  match p with
  | Payload.IssueComment c => Some (Payload.body c)
  | Payload.PullRequestReview r => Some (or_else (Payload.review_body r) "")
  | Payload.PullRequestReviewComment c => Some (Payload.body c)
  | _ => None
  end.

(** [if (!x) { throw new Error(message) }], after which [x] is a
    non-empty string. *)
Definition require {A} (x : option string) (message : string)
           (k : string -> Result A) : Result A :=
  match x with
  | Some s => if s =? "" then Throw (Error message) else k s
  | None => Throw (Error message)
  end.

(** [if (!b) { throw new Error(message) }] on a boolean. *)
Definition guard {A} (b : bool) (message : string) (k : Result A)
  : Result A :=
  if b then k else Throw (Error message).

(** Lines 174-347: the switch on the event name. *)
Definition eventData (context : Context.t)
           (baseBranch claudeBranch : option string) : Result EventData :=
  let eventName := Context.eventName context in
  let eventAction := Context.eventAction context in
  let assigneeTrigger := Inputs.assigneeTrigger (Context.inputs context) in
  let labelTrigger := Inputs.labelTrigger (Context.inputs context) in
  let directPrompt := Inputs.directPrompt (Context.inputs context) in
  let isPR := Context.isPR context in
  let prNumber :=
    if isPR then Some (toString (Context.entityNumber context)) else None in
  let issueNumber :=
    if negb isPR then Some (toString (Context.entityNumber context))
    else None in
  let commentId := commentId (Context.payload context) in
  let commentBody := commentBody (Context.payload context) in
  if eventName =? "pull_request_review_comment" then
    require prNumber
      "PR_NUMBER is required for pull_request_review_comment event"
      (fun prNumber =>
    guard isPR "IS_PR must be true for pull_request_review_comment event" (
    require commentBody
      "COMMENT_BODY is required for pull_request_review_comment event"
      (fun commentBody =>
    Ok (PullRequestReviewCommentEvent prNumber (spread commentId) commentBody
          (spread claudeBranch) (spread baseBranch)))))
  else if eventName =? "pull_request_review" then
    require prNumber "PR_NUMBER is required for pull_request_review event"
      (fun prNumber =>
    guard isPR "IS_PR must be true for pull_request_review event" (
    require commentBody
      "COMMENT_BODY is required for pull_request_review event"
      (fun commentBody =>
    Ok (PullRequestReviewEvent prNumber commentBody
          (spread claudeBranch) (spread baseBranch)))))
  else if eventName =? "issue_comment" then
    require commentId "COMMENT_ID is required for issue_comment event"
      (fun commentId =>
    require commentBody "COMMENT_BODY is required for issue_comment event"
      (fun commentBody =>
    if isPR then
      require prNumber "PR_NUMBER is required for issue_comment event for PRs"
        (fun prNumber =>
      Ok (IssueCommentOnPREvent commentId prNumber commentBody
            (spread claudeBranch) (spread baseBranch)))
    else
      require claudeBranch "CLAUDE_BRANCH is required for issue_comment event"
        (fun claudeBranch =>
      require baseBranch "BASE_BRANCH is required for issue_comment event"
        (fun baseBranch =>
      require issueNumber
        "ISSUE_NUMBER is required for issue_comment event for issues"
        (fun issueNumber =>
      Ok (IssueCommentEvent commentId claudeBranch baseBranch issueNumber
            commentBody))))))
  else if eventName =? "issues" then
    require eventAction "GITHUB_EVENT_ACTION is required for issues event"
      (fun eventAction =>
    require issueNumber "ISSUE_NUMBER is required for issues event"
      (fun issueNumber =>
    guard (negb isPR) "IS_PR must be false for issues event" (
    require baseBranch "BASE_BRANCH is required for issues event"
      (fun baseBranch =>
    require claudeBranch "CLAUDE_BRANCH is required for issues event"
      (fun claudeBranch =>
    if eventAction =? "assigned" then
      if negb (truthy assigneeTrigger) && negb (truthy directPrompt) then
        Throw (Error "ASSIGNEE_TRIGGER is required for issue assigned event")
      else
        Ok (IssueAssignedEvent issueNumber baseBranch claudeBranch
              (spread assigneeTrigger))
    else if eventAction =? "labeled" then
      require labelTrigger "LABEL_TRIGGER is required for issue labeled event"
        (fun labelTrigger =>
      Ok (IssueLabeledEvent issueNumber baseBranch claudeBranch labelTrigger))
    else if eventAction =? "opened" then
      Ok (IssueOpenedEvent issueNumber baseBranch claudeBranch)
    else
      Throw (Error ("Unsupported issue action: " ++ eventAction)))))))
  else if eventName =? "pull_request" then
    require prNumber "PR_NUMBER is required for pull_request event"
      (fun prNumber =>
    guard isPR "IS_PR must be true for pull_request event" (
    Ok (PullRequestEvent eventAction prNumber
          (spread claudeBranch) (spread baseBranch))))
  else
    Throw (Error ("Unsupported event type: " ++ eventName)).

(** Lines 156-169. *)
Definition commonFields (context : Context.t) (claudeCommentId : string)
           (claudeBranch : option string) : CommonFields.t :=
  let i := Context.inputs context in
  CommonFields.mk
    (Repository.full_name (Context.repository context))
    claudeCommentId
    (or_else (Inputs.triggerPhrase i) "@claude")
    (spread (triggerUsername (Context.payload context)))
    (spread (Inputs.customInstructions i))
    (match Inputs.allowedTools i with
     | [] => None
     | l => Some (join "," l)
     end)
    (match Inputs.disallowedTools i with
     | [] => None
     | l => Some (join "," l)
     end)
    (spread (Inputs.directPrompt i))
    (spread claudeBranch).

(** Lines 114-353. *)
Definition prepareContext (context : Context.t) (claudeCommentId : string)
           (baseBranch claudeBranch : option string)
  : Result PreparedContext.t :=
  match eventData context baseBranch claudeBranch with
  | Ok e =>
      Ok (PreparedContext.mk
            (commonFields context claudeCommentId claudeBranch) e)
  | Throw e => Throw e
  end.

(* ===================================================================== *)
(** ** create-prompt/index.ts: the allowed tools *)
(* ===================================================================== *)

Definition BASE_ALLOWED_TOOLS : list string :=
  ["Edit"; "MultiEdit"; "Glob"; "Grep"; "LS"; "Read"; "Write"].

(** Lines 42-81: the array [baseTools] after all its pushes. *)
Definition baseTools (includeActionsTools useCommitSigning
                      createPullRequest : bool) : list string :=
  BASE_ALLOWED_TOOLS
  ++ ["mcp__github_comment__update_claude_comment"]
  ++ (if createPullRequest
      then ["mcp__github__create_pull_request";
            "mcp__github__update_pull_request"]
      else [])
  ++ (if useCommitSigning
      then ["mcp__github_file_ops__commit_files";
            "mcp__github_file_ops__delete_files"]
      else ["Bash(git add:*)";
            "Bash(git commit:*)";
            "Bash(git push:*)";
            "Bash(git status:*)";
            "Bash(git diff:*)";
            "Bash(git log:*)";
            "Bash(git rm:*)";
            "Bash(git config user.name:*)";
            "Bash(git config user.email:*)"])
  ++ (if includeActionsTools
      then ["mcp__github_ci__get_ci_status";
            "mcp__github_ci__get_workflow_run_details";
            "mcp__github_ci__download_job_log"]
      else []).

(** Lines 36-88. *)
Definition buildAllowedToolsString
           (customAllowedTools : option (list string))
           (includeActionsTools useCommitSigning createPullRequest : bool)
  : string :=
  let allAllowedTools :=
    join "," (baseTools includeActionsTools useCommitSigning
                        createPullRequest) in
  match customAllowedTools with
  | Some (c :: l) => allAllowedTools ++ "," ++ join "," (c :: l)
  | _ => allAllowedTools
  end.

(* ===================================================================== *)
(** ** create-prompt/index.ts: getEventTypeAndContext *)
(* ===================================================================== *)

Module EventTypeAndContext.
Record t : Type := mk
  { eventType : string;
    triggerContext : string }.
End EventTypeAndContext.

(** Lines 355-410.  The [default] arm of the switch cannot be reached by
    a value of [EventData]: every variant carries one of the five event
    names. *)
Definition getEventTypeAndContext (envVars : PreparedContext.t)
  : EventTypeAndContext.t :=
  let triggerPhrase :=
    CommonFields.triggerPhrase (PreparedContext.commonFields envVars) in
  match PreparedContext.eventData envVars with
  | PullRequestReviewCommentEvent _ _ _ _ _ =>
      EventTypeAndContext.mk "REVIEW_COMMENT"
        ("PR review comment with '" ++ triggerPhrase ++ "'")
  | PullRequestReviewEvent _ _ _ _ =>
      EventTypeAndContext.mk "PR_REVIEW"
        ("PR review with '" ++ triggerPhrase ++ "'")
  | IssueCommentOnPREvent _ _ _ _ _ | IssueCommentEvent _ _ _ _ _ =>
      EventTypeAndContext.mk "GENERAL_COMMENT"
        ("issue comment with '" ++ triggerPhrase ++ "'")
  | IssueOpenedEvent _ _ _ =>
      EventTypeAndContext.mk "ISSUE_CREATED"
        ("new issue with '" ++ triggerPhrase ++ "' in body")
  | IssueLabeledEvent _ _ _ labelTrigger =>
      EventTypeAndContext.mk "ISSUE_LABELED"
        ("issue labeled with '" ++ labelTrigger ++ "'")
  | IssueAssignedEvent _ _ _ assigneeTrigger =>
      EventTypeAndContext.mk "ISSUE_ASSIGNED"
        (match assigneeTrigger with
         | Some a => if a =? "" then "issue assigned event"
                     else "issue assigned to '" ++ a ++ "'"
         | None => "issue assigned event"
         end)
  | PullRequestEvent eventAction _ _ _ =>
      EventTypeAndContext.mk "PULL_REQUEST"
        (match eventAction with
         | Some a => if a =? "" then "pull request event"
                     else "pull request " ++ a
         | None => "pull request event"
         end)
  end.

(** The [eventName], [isPR] and number fields of the object literals of
    prepareContext. *)
Definition eventData_eventName (e : EventData) : string :=
  match e with
  | PullRequestReviewCommentEvent _ _ _ _ _ => "pull_request_review_comment"
  | PullRequestReviewEvent _ _ _ _ => "pull_request_review"
  | IssueCommentOnPREvent _ _ _ _ _ | IssueCommentEvent _ _ _ _ _ =>
      "issue_comment"
  | IssueAssignedEvent _ _ _ _ | IssueLabeledEvent _ _ _ _
  | IssueOpenedEvent _ _ _ => "issues"
  | PullRequestEvent _ _ _ _ => "pull_request"
  end.

Definition eventData_isPR (e : EventData) : bool :=
  match e with
  | PullRequestReviewCommentEvent _ _ _ _ _ | PullRequestReviewEvent _ _ _ _
  | IssueCommentOnPREvent _ _ _ _ _ | PullRequestEvent _ _ _ _ => true
  | IssueCommentEvent _ _ _ _ _ | IssueAssignedEvent _ _ _ _
  | IssueLabeledEvent _ _ _ _ | IssueOpenedEvent _ _ _ => false
  end.

(** [prNumber] or [issueNumber], whichever the variant has. *)
Definition eventData_number (e : EventData) : string :=
  match e with
  | PullRequestReviewCommentEvent prNumber _ _ _ _ => prNumber
  | PullRequestReviewEvent prNumber _ _ _ => prNumber
  | IssueCommentOnPREvent _ prNumber _ _ _ => prNumber
  | IssueCommentEvent _ _ _ issueNumber _ => issueNumber
  | IssueAssignedEvent issueNumber _ _ _ => issueNumber
  | IssueLabeledEvent issueNumber _ _ _ => issueNumber
  | IssueOpenedEvent issueNumber _ _ => issueNumber
  | PullRequestEvent _ prNumber _ _ => prNumber
  end.

(* ===================================================================== *)
(** ** create-prompt/index.ts: createPrompt *)
(* ===================================================================== *)

(** What createPrompt reads of the run beside the inputs of
    prepareContext: [context.inputs.createPullRequest],
    [context.inputs.additionalPermissions] (a Map) and [context.runId]. *)
Module RunInputs.
Record t : Type := mk
  { createPullRequest : bool;
    additionalPermissions : string -> option string;
    runId : string }.
End RunInputs.

(** The file system and the process environment, as createPrompt meets
    them; [describe] is the string conversion of a thrown value that is
    not an Error object. *)
Record PromptEnv : Type := mkPromptEnv
  { RUNNER_TEMP : option string;
    mkdir : string -> Settled unit;
    writeFile : string -> string -> Settled unit;
    describe : Exception -> string }.

(** What createPrompt leaves behind: directories made, files written,
    variables exported, failures reported, each in order. *)
Record PromptWorld : Type := mkPromptWorld
  { directories : list string;
    files : list (string * string);
    variables : list (string * string);
    failures : list string }.

(** Interpolation of [string | undefined] into a template. *)
Definition interpolate (s : option string) : string :=
  match s with
  | Some s' => s'
  | None => "undefined"
  end.

Section CreatePrompt.
Variable penv : PromptEnv.

(** [githubData] is handed on to generatePrompt untouched.  generatePrompt
    itself (lines 470-779) builds on formatters that are not among the
    sources at hand; createPrompt is modelled for any function in its
    place. *)
Variable FetchDataResult : Type.
Variable generatePrompt :
  PreparedContext.t -> FetchDataResult -> bool -> bool -> string ->
  Result string.

(** [`${error}`]: an Error object reads as its name, a colon and its
    message, or as its name alone when the message is empty. *)
Definition String_error (e : Exception) : string :=
  match e with
  | Error message =>
      if message =? "" then "Error" else "Error: " ++ message
  | TypeError message =>
      if message =? "" then "TypeError" else "TypeError: " ++ message
  | other => describe penv other
  end.

Definition promptDirectory : string :=
  interpolate (RUNNER_TEMP penv) ++ "/claude-prompts".

Definition promptFile : string :=
  interpolate (RUNNER_TEMP penv) ++ "/claude-prompts/claude-prompt.txt".

(** Lines 821-836: the two tool lists. *)
Definition exportTools (context : Context.t) (run : RunInputs.t)
           (w : PromptWorld) : PromptWorld :=
  let i := Context.inputs context in
  let hasActionsReadPermission :=
    match RunInputs.additionalPermissions run "actions" with
    | Some p => p =? "read"
    | None => false
    end && Context.isPR context in
  let allAllowedTools :=
    buildAllowedToolsString (Some (Inputs.allowedTools i))
      hasActionsReadPermission (Inputs.useCommitSigning i)
      (RunInputs.createPullRequest run) in
  let allDisallowedTools :=
    buildDisallowedToolsString (Some (Inputs.disallowedTools i))
      (Some (Inputs.allowedTools i)) in
  mkPromptWorld (directories w) (files w)
    (variables w ++ [("ALLOWED_TOOLS", allAllowedTools);
                     ("DISALLOWED_TOOLS", allDisallowedTools)])
    (failures w).

(** Lines 837-840: the catch block. *)
Definition createPrompt_failed (error : Exception) (w : PromptWorld)
  : Outcome unit * PromptWorld :=
  (Exited 1,
   mkPromptWorld (directories w) (files w) (variables w)
     (failures w
      ++ [("Create prompt failed with error: " ++ String_error error)%string])).

(** Lines 781-841. *)
Definition createPrompt (claudeCommentId : N)
           (baseBranch claudeBranch : option string)
           (githubData : FetchDataResult) (context : Context.t)
           (run : RunInputs.t) (w : PromptWorld)
  : Outcome unit * PromptWorld :=
  match prepareContext context (toString claudeCommentId)
                       baseBranch claudeBranch with
  | Throw error => createPrompt_failed error w
  | Ok preparedContext =>
      match mkdir penv promptDirectory with
      | Rejected error => createPrompt_failed error w
      | Resolved _ =>
          let w1 := mkPromptWorld (directories w ++ [promptDirectory])
                      (files w) (variables w) (failures w) in
          match generatePrompt preparedContext githubData
                  (Inputs.useCommitSigning (Context.inputs context))
                  (RunInputs.createPullRequest run)
                  (RunInputs.runId run) with
          | Throw error => createPrompt_failed error w1
          | Ok promptContent =>
              match writeFile penv promptFile promptContent with
              | Rejected error => createPrompt_failed error w1
              | Resolved _ =>
                  let w2 := mkPromptWorld (directories w1)
                              (files w1 ++ [(promptFile, promptContent)])
                              (variables w1) (failures w1) in
                  (Returned tt, exportTools context run w2)
              end
          end
      end
  end.
End CreatePrompt.

(* ===================================================================== *)
(** ** Vocabulary of the further properties *)
(* ===================================================================== *)

(** The characters of a branch name built from nothing but lower-case
    letters, digits and hyphens. *)
Definition isBranchChar (c : ascii) : bool :=
  let n := nat_of_ascii c in
  ((97 <=? n)%nat && (n <=? 122)%nat)
  || ((48 <=? n)%nat && (n <=? 57)%nat)
  || (n =? 45)%nat.

(** The context with another base-branch prompt. *)
Definition withPrompt (prompt : option string) (context : Context.t)
  : Context.t :=
  let i := Context.inputs context in
  Context.mk (Context.repository context) (Context.eventName context)
    (Context.eventAction context) (Context.entityNumber context)
    (Context.isPR context)
    (Inputs.mk (Inputs.triggerPhrase i) (Inputs.assigneeTrigger i)
       (Inputs.labelTrigger i) (Inputs.customInstructions i)
       (Inputs.allowedTools i) (Inputs.disallowedTools i)
       (Inputs.directPrompt i) (Inputs.baseBranch i) prompt
       (Inputs.branchPrefix i) (Inputs.useTimestampSuffix i)
       (Inputs.useCommitSigning i))
    (Context.payload context).

(** Two environments that differ at most in what only the advisor uses:
    the credentials, the branch listing and the completion service. *)
Definition sameCheckout (env env' : Env) : Prop :=
  (forall c, git_status env c = git_status env' c)
  /\ (forall k, repos_get env k = repos_get env' k)
  /\ (forall ref, git_getRef env ref = git_getRef env' ref)
  /\ now env = now env'.

(** The five event names of prepareContext. *)
Definition supportedEvents : list string :=
  ["pull_request_review_comment"; "pull_request_review"; "issue_comment";
   "issues"; "pull_request"].

(** The guards of prepareContext that no input can trigger. *)
Definition deadGuards : list string :=
  ["IS_PR must be true for pull_request_review_comment event";
   "IS_PR must be true for pull_request_review event";
   "PR_NUMBER is required for issue_comment event for PRs";
   "ISSUE_NUMBER is required for issue_comment event for issues";
   "IS_PR must be false for issues event";
   "IS_PR must be true for pull_request event"].

(* ===================================================================== *)
(** ** Vocabulary of the properties *)
(* ===================================================================== *)

(** The condition under which setupBranch takes the creation path. *)
Definition creationPath (contextData : ContextData) (context : Context.t)
  : bool :=
  negb (Context.isPR context) || closedOrMerged (contextData_state contextData).

(** Both outputs are set, in this order. *)
Definition withOutputs (w : World) (newBranch sourceBranch : string) : World :=
  mkWorld (shell w)
          (outputs w ++ [("CLAUDE_BRANCH", newBranch);
                         ("BASE_BRANCH", sourceBranch)])
          (repos_get_calls w).

Definition withGit (w : World) (c : GitCmd) : World :=
  mkWorld (shell w ++ [c]) (outputs w) (repos_get_calls w).

(** An optional array read as a list: absent is empty. *)
Definition tools (o : option (list string)) : list string :=
  match o with
  | Some l => l
  | None => []
  end.

(** The default tools that the caller has not allowed. *)
Definition remainingDefaults (allowedTools : option (list string))
  : list string :=
  filter (fun tool => negb (includes (tools allowedTools) tool))
         DISALLOWED_TOOLS.


(** [String.prototype.split] on a one-character separator: the entries of
    a comma-separated tool list. *)
Fixpoint split (sep : ascii) (s : string) : list string :=
  match s with
  | EmptyString => [EmptyString]
  | String c r =>
      if Ascii.eqb c sep then EmptyString :: split sep r
      else
        match split sep r with
        | h :: t => String c h :: t
        | [] => [String c EmptyString]
        end
  end.

(* ===================================================================== *)
(** ** The scenarios of the specification *)
(* ===================================================================== *)

Module Scenario.

Definition repository : Repository.t :=
  Repository.mk "acme" "widgets" "acme/widgets".

(** The inputs of a run that configures nothing but the branch prefix. *)
Definition inputs : Inputs.t :=
  Inputs.mk None None None None [] [] None None None "claude-" false false.

Definition notFound : Exception := RequestError "Not Found".

(** A healthy checkout and hosting service whose default branch is main;
    no completion credentials. *)
Definition env : Env :=
  mkEnv (fun _ => true)
        (fun _ => Resolved "main")
        (fun ref => if ref =? "heads/main"
                    then Resolved "3f2a9c1e" else Rejected notFound)
        (Resolved ["develop"; "main"])
        None None
        (fun _ _ => Rejected (RequestError "401"))
        (Date.mk 2025 0 5 9 3).

(** Scenario A: open pull request 42, feature-x onto main, 5 commits. *)
Definition prA : GitHubPullRequest.t :=
  GitHubPullRequest.mk "Add x" (Some "Adds x.") "OPEN" "feature-x" "main" 5.

Definition contextA : Context.t :=
  Context.mk repository "issue_comment" (Some "created") 42 true inputs
    (Payload.IssueComment (Payload.mkComment 9001 "@claude fix" "alice")).

(** Scenario B: closed pull request 7. *)
Definition prB : GitHubPullRequest.t :=
  GitHubPullRequest.mk "Old" None "CLOSED" "old-work" "main" 3.

Definition contextB : Context.t :=
  Context.mk repository "issue_comment" (Some "created") 7 true inputs
    (Payload.IssueComment (Payload.mkComment 9002 "@claude retry" "bob")).

(** Scenario C: issue 101 is assigned; no assignee trigger, no direct
    prompt.  The branches come from the branch setup that ran before. *)
Definition contextC : Context.t :=
  Context.mk repository "issues" (Some "assigned") 101 false inputs
    (Payload.Issues "carol").

(** The same event with an assignee trigger configured. *)
Definition inputsC' : Inputs.t :=
  Inputs.mk None (Some "claude-bot") None None [] [] None None None
    "claude-" false false.

Definition contextC' : Context.t :=
  Context.mk repository "issues" (Some "assigned") 101 false inputsC'
    (Payload.Issues "carol").

(** Scenario D: issue 9 with an AI prompt; the advisor answers hotfix-9. *)
Definition inputsD : Inputs.t :=
  Inputs.mk None None None None [] [] None None
    (Some "Use the release branch for hotfixes") "claude-" false false.

Definition issueD : ContextData :=
  IssueData (GitHubIssue.mk "Crash on start" (Some "It crashes.") "OPEN").

Definition contextD : Context.t :=
  Context.mk repository "issues" (Some "opened") 9 false inputsD
    (Payload.Issues "dave").

Definition envD : Env :=
  mkEnv (fun _ => true)
        (fun _ => Resolved "main")
        (fun ref => if ref =? "heads/main"
                    then Resolved "3f2a9c1e" else Rejected notFound)
        (Resolved ["develop"; "main"])
        (Some "sk-ant-test") None
        (fun _ _ => Resolved [TextBlock "hotfix-9"])
        (Date.mk 2025 0 5 9 3).

(** A repository with more branches than one page of the listing holds:
    the page is feature-1 .. feature-100, the default branch main is not
    on it. *)
Definition firstPage : list string :=
  map (fun n => ("feature-" ++ toString (N.of_nat n))%string) (seq 1 100).

Definition envLarge : Env :=
  mkEnv (fun _ => true)
        (fun _ => Resolved "main")
        (fun ref => if ref =? "heads/main"
                    then Resolved "3f2a9c1e" else Rejected notFound)
        (Resolved firstPage)
        (Some "sk-ant-test") None
        (fun _ _ => Resolved [TextBlock "hotfix-9"])
        (Date.mk 2025 0 5 9 3).

(** The hosting service is down for the whole run. *)
Definition unavailable : Exception := RequestError "503".

Definition envDown : Env :=
  mkEnv (fun _ => true)
        (fun _ => Rejected unavailable)
        (fun _ => Rejected unavailable)
        (Rejected unavailable)
        (Some "sk-ant-test") None
        (fun _ _ => Resolved [TextBlock "main"])
        (Date.mk 2025 0 5 9 3).

(** An issue in a project whose branch prefix carries an underscore. *)
Definition inputsU : Inputs.t :=
  Inputs.mk None None None None [] [] None None None "claude_" false false.

Definition contextU : Context.t :=
  Context.mk repository "issues" (Some "opened") 5 false inputsU
    (Payload.Issues "erin").

Definition issueU : ContextData :=
  IssueData (GitHubIssue.mk "Typo" None "OPEN").

(** A run that configures a base branch and a prompt at once. *)
Definition inputsE : Inputs.t :=
  Inputs.mk None None None None [] [] None (Some "develop")
    (Some "Use the release branch for hotfixes") "claude-" false false.

Definition contextE : Context.t :=
  Context.mk repository "issues" (Some "opened") 9 false inputsE
    (Payload.Issues "dave").

(** Issue 12 in a run with commit signing. *)
Definition inputsS : Inputs.t :=
  Inputs.mk None None None None [] [] None None None "claude-" false true.

Definition contextS : Context.t :=
  Context.mk repository "issues" (Some "opened") 12 false inputsS
    (Payload.Issues "frank").

End Scenario.

(* ===================================================================== *)
(** ** Further events, for the properties beyond the scenarios *)
(* ===================================================================== *)

Module Examples.

(** A push, which the action does not handle. *)
Definition contextPush : Context.t :=
  Context.mk Scenario.repository "push" None 0 false Scenario.inputs
    Payload.Other.

(** An issues event that claims to be about a pull request. *)
Definition contextIssueOnPR : Context.t :=
  Context.mk Scenario.repository "issues" (Some "assigned") 101 true
    Scenario.inputsC' (Payload.Issues "carol").

(** Issue 33 gets the label claude. *)
Definition inputsLabel : Inputs.t :=
  Inputs.mk None None (Some "claude") None [] [] None None None
    "claude-" false false.

Definition contextLabeled : Context.t :=
  Context.mk Scenario.repository "issues" (Some "labeled") 33 false
    inputsLabel (Payload.Issues "gina").

(** Issue 33 is closed: an action that prepareContext does not know. *)
Definition contextClosed : Context.t :=
  Context.mk Scenario.repository "issues" (Some "closed") 33 false
    inputsLabel (Payload.Issues "gina").

(** A comment on issue 33. *)
Definition contextComment : Context.t :=
  Context.mk Scenario.repository "issue_comment" (Some "created") 33 false
    Scenario.inputs
    (Payload.IssueComment (Payload.mkComment 9003 "@claude help" "gina")).

(** An approving review of pull request 42 that has no body. *)
Definition contextReview : Context.t :=
  Context.mk Scenario.repository "pull_request_review" (Some "submitted")
    42 true Scenario.inputs
    (Payload.PullRequestReview (Payload.mkReview None "henry")).

(** Pull request 42 is synchronized. *)
Definition contextPullRequest : Context.t :=
  Context.mk Scenario.repository "pull_request" (Some "synchronize")
    42 true Scenario.inputs Payload.PullRequest.

(** A checkout in which every git command fails. *)
Definition envNoGit : Env :=
  mkEnv (fun _ => false)
        (fun _ => Resolved "main")
        (fun _ => Resolved "3f2a9c1e")
        (Resolved ["develop"; "main"])
        None None
        (fun _ _ => Rejected (RequestError "401"))
        (Date.mk 2025 0 5 9 3).

(** Issues 5 and 6 under a branch prefix of fifty characters. *)
Definition inputsLong : Inputs.t :=
  Inputs.mk None None None None [] [] None None None
    "Automation/Assistant/Generated-Branches/For-Issue/" false false.

Definition contextLong5 : Context.t :=
  Context.mk Scenario.repository "issues" (Some "opened") 5 false
    inputsLong (Payload.Issues "ivy").

Definition contextLong6 : Context.t :=
  Context.mk Scenario.repository "issues" (Some "opened") 6 false
    inputsLong (Payload.Issues "ivy").

(** A completion that wraps the branch name in white space. *)
Definition envPadded : Env :=
  mkEnv (fun _ => true)
        (fun _ => Resolved "main")
        (fun _ => Resolved "3f2a9c1e")
        (Resolved ["develop"; "main"])
        None (Some "oauth-token")
        (fun _ _ => Resolved [TextBlock (" develop" ++ LF)])
        (Date.mk 2025 0 5 9 3).

(** A runner whose file system works, and one whose disk is full. *)
Definition penv : PromptEnv :=
  mkPromptEnv (Some "/home/runner/work/_temp")
              (fun _ => Resolved tt) (fun _ _ => Resolved tt)
              (fun _ => "Error").

Definition penvFull : PromptEnv :=
  mkPromptEnv (Some "/home/runner/work/_temp")
              (fun _ => Resolved tt)
              (fun _ _ => Rejected (Error "ENOSPC: no space left on device"))
              (fun _ => "Error").

(** A run with the permission to read the actions of the repository. *)
Definition runInputs : RunInputs.t :=
  RunInputs.mk false
    (fun key => if key =? "actions" then Some "read" else None) "1234567".

(** A prompt generator that succeeds. *)
Definition somePrompt (p : PreparedContext.t) (d : ContextData)
           (useCommitSigning createPullRequest : bool) (runId : string)
  : Result string :=
  Ok "You are Claude".

Definition nothing : PromptWorld := mkPromptWorld [] [] [] [].

End Examples.

(* ===================================================================== *)
(** * Properties *)
(* ===================================================================== *)

(** ** Small facts about the effects *)

Lemma octokit_repos_get_resolved env w d :
  repos_get env (repos_get_calls w) = Resolved d ->
  octokit_repos_get env w = (Returned d, bump w).
Proof. unfold octokit_repos_get. intros ->. reflexivity. Qed.

Lemma octokit_repos_get_rejected env w e :
  repos_get env (repos_get_calls w) = Rejected e ->
  octokit_repos_get env w = (Thrown e, bump w).
Proof. unfold octokit_repos_get. intros ->. reflexivity. Qed.

(** A call to repos.get never exits and leaves shell and outputs alone. *)
Lemma octokit_repos_get_cases env w :
  (exists d, repos_get env (repos_get_calls w) = Resolved d
             /\ octokit_repos_get env w = (Returned d, bump w))
  \/ (exists e, repos_get env (repos_get_calls w) = Rejected e
                /\ octokit_repos_get env w = (Thrown e, bump w)).
Proof.
  unfold octokit_repos_get.
  destruct (repos_get env (repos_get_calls w)) as [d|e]; [left|right]; eauto.
Qed.

Lemma truthy_Some s : truthy (Some s) = true <-> s <> "".
Proof.
  simpl. destruct (String.eqb_spec s ""); simpl; split; congruence.
Qed.

(** The source branch computation only ever talks to repos.get. *)
Lemma sourceBranch_cases env context w :
  (exists b, Inputs.baseBranch (Context.inputs context) = Some b /\ b <> ""
             /\ sourceBranch env context w = (Returned b, w))
  \/ (truthy (Inputs.baseBranch (Context.inputs context)) = false
      /\ sourceBranch env context w = octokit_repos_get env w).
Proof.
  unfold sourceBranch.
  destruct (Inputs.baseBranch (Context.inputs context)) as [b|]; simpl.
  - destruct (String.eqb_spec b ""); simpl.
    + right. split; [reflexivity|].
      destruct (truthy (Inputs.baseBranchPrompt (Context.inputs context)));
        reflexivity.
    + left. exists b. auto.
  - right. split; [reflexivity|].
    destruct (truthy (Inputs.baseBranchPrompt (Context.inputs context)));
      reflexivity.
Qed.

Lemma sourceBranch_frame env context w o w' :
  sourceBranch env context w = (o, w') ->
  shell w' = shell w /\ outputs w' = outputs w.
Proof.
  destruct (sourceBranch_cases env context w) as [(b & _ & _ & E)|[_ E]];
    rewrite E.
  - intros [= _ <-]. auto.
  - destruct (octokit_repos_get_cases env w) as [(d & _ & E')|(e & _ & E')];
      rewrite E'; intros [= _ <-]; auto.
Qed.

(* ===================================================================== *)
(** ** The open pull request *)
(* ===================================================================== *)

(** Any pull request that is neither closed nor merged is checked out. *)
Lemma setupBranch_checkoutPR env pr context w :
  Context.isPR context = true ->
  closedOrMerged (GitHubPullRequest.state pr) = false ->
  setupBranch env (PullRequestData pr) context w = checkoutPR env pr w.
Proof.
  intros HPR Hst. unfold setupBranch. rewrite HPR. simpl.
  rewrite Hst. reflexivity.
Qed.

(** C1.  For an open pull request, setupBranch issues
    [git fetch origin --depth=max(commits, 20) head], then
    [git checkout head], nothing else, and returns the record whose
    baseBranch is the base ref, whose currentBranch is the head ref, and
    which has no claudeBranch.  The two git commands are taken to succeed,
    as the specification assumes of the local checkout. *)
Theorem setupBranch_open_pr :
  forall env pr context w,
    Context.isPR context = true ->
    GitHubPullRequest.state pr = "OPEN" ->
    let head := GitHubPullRequest.headRefName pr in
    let depth := Z.max (GitHubPullRequest.commits_totalCount pr) 20 in
    git_status env (GitFetch depth head) = true ->
    git_status env (GitCheckout head) = true ->
    setupBranch env (PullRequestData pr) context w =
    (Returned (BranchInfo.mk (GitHubPullRequest.baseRefName pr) None head),
     mkWorld (shell w ++ [GitFetch depth head; GitCheckout head])
             (outputs w) (repos_get_calls w)).
Proof.
  intros env pr context w HPR Hst head depth Hfetch Hcheckout.
  rewrite setupBranch_checkoutPR; [|assumption|rewrite Hst; reflexivity].
  unfold checkoutPR, bind, git. fold head. fold depth.
  rewrite Hfetch. simpl. rewrite Hcheckout. unfold ret.
  rewrite <- app_assoc. reflexivity.
Qed.

(** Scenario A: 5 commits give depth 20, feature-x is checked out. *)
Lemma setupBranch_open_pr_witness :
  setupBranch Scenario.env (PullRequestData Scenario.prA) Scenario.contextA
              init =
  (Returned (BranchInfo.mk "main" None "feature-x"),
   mkWorld [GitFetch 20 "feature-x"; GitCheckout "feature-x"] [] 0).
Proof.
  exact (setupBranch_open_pr Scenario.env Scenario.prA Scenario.contextA init
           eq_refl eq_refl eq_refl eq_refl).
Defined.

(* ===================================================================== *)
(** ** The source branch *)
(* ===================================================================== *)

(** C2.  A configured base branch is the source branch, whatever the
    prompt and whatever the hosting service would answer, and the service
    is not even asked.  With neither a base branch nor a prompt the source
    branch is what repos.get reports as the default branch (and a failure
    of that call is the failure of the resolution). *)
Theorem sourceBranch_precedence :
  forall env context w,
    (forall b,
        Inputs.baseBranch (Context.inputs context) = Some b -> b <> "" ->
        sourceBranch env context w = (Returned b, w))
    /\ (truthy (Inputs.baseBranch (Context.inputs context)) = false ->
        truthy (Inputs.baseBranchPrompt (Context.inputs context)) = false ->
        (forall d, repos_get env (repos_get_calls w) = Resolved d ->
                   sourceBranch env context w = (Returned d, bump w))
        /\ (forall e, repos_get env (repos_get_calls w) = Rejected e ->
                      sourceBranch env context w = (Thrown e, bump w))).
Proof.
  intros env context w. split.
  - intros b Hb Hne.
    destruct (sourceBranch_cases env context w) as [(b' & Hb' & _ & E)|[F _]].
    + congruence.
    + rewrite Hb in F. apply truthy_Some in Hne. congruence.
  - intros Hbase _.
    destruct (sourceBranch_cases env context w) as [(b' & Hb' & Hne & _)|[_ E]].
    + rewrite Hb' in Hbase. apply truthy_Some in Hne. congruence.
    + rewrite E. split; intros x Hx.
      * now apply octokit_repos_get_resolved.
      * now apply octokit_repos_get_rejected.
Qed.

(** A base branch wins over a prompt even when the hosting service is
    down; without base branch and prompt the default branch is used. *)
Lemma sourceBranch_precedence_witness :
  sourceBranch Scenario.envDown Scenario.contextE init
  = (Returned "develop", init)
  /\ sourceBranch Scenario.env Scenario.contextB init
     = (Returned "main", bump init).
Proof.
  split.
  - apply (proj1 (sourceBranch_precedence Scenario.envDown Scenario.contextE
                    init) "develop"); [reflexivity|discriminate].
  - apply (proj1 (proj2 (sourceBranch_precedence Scenario.env
                           Scenario.contextB init) eq_refl eq_refl) "main").
    reflexivity.
Defined.

(* ===================================================================== *)
(** ** The advisor *)
(* ===================================================================== *)

Lemma includes_In l x : includes l x = true <-> In x l.
Proof.
  unfold includes. rewrite existsb_exists. split.
  - intros (y & Hy & E). apply String.eqb_eq in E. now subst.
  - intros H. exists x. split; [assumption|apply String.eqb_refl].
Qed.

Lemma includes_not_In l x : includes l x = false <-> ~ In x l.
Proof.
  rewrite <- includes_In. destruct (includes l x); split; congruence.
Qed.

Ltac advisor_unfold :=
  unfold determineBranchWithAI, try_catch, bind, getDefaultBranch,
    completion, anthropic_messages_create, octokit_listBranches,
    octokit_repos_get, await, ret, throw.

(** Without credentials the advisor is the default-branch fetch, tried
    once more if it fails. *)
Lemma determineBranchWithAI_unauthenticated env data context prompt w :
  authenticated env = false ->
  determineBranchWithAI env data context prompt w =
  match repos_get env (repos_get_calls w) with
  | Resolved d => (Returned d, bump w)
  | Rejected _ => octokit_repos_get env (bump w)
  end.
Proof.
  unfold authenticated. intros H. apply negb_false_iff in H.
  advisor_unfold. rewrite H.
  destruct (repos_get env (repos_get_calls w)); reflexivity.
Qed.

(** With credentials: the four ways through the guarded block. *)
Lemma determineBranchWithAI_authenticated env data context prompt w :
  authenticated env = true ->
  determineBranchWithAI env data context prompt w =
  match repos_get env (repos_get_calls w) with
  | Rejected _ => octokit_repos_get env (bump w)
  | Resolved d =>
      match repos_listBranches env with
      | Rejected _ => octokit_repos_get env (bump w)
      | Resolved branches =>
          match messages_create env
                  (systemPrompt context prompt d branches)
                  (userPrompt data context) with
          | Rejected _ => octokit_repos_get env (bump w)
          | Resolved content =>
              if includes branches (suggestion content d)
              then (Returned (suggestion content d), bump w)
              else (Returned d, bump w)
          end
      end
  end.
Proof.
  unfold authenticated. intros H. apply negb_true_iff in H.
  advisor_unfold. rewrite H.
  destruct (repos_get env (repos_get_calls w)) as [d|e]; [|reflexivity].
  destruct (repos_listBranches env) as [branches|e]; [|reflexivity].
  simpl.
  destruct (messages_create env _ _) as [content|e]; [|reflexivity].
  destruct (includes branches (suggestion content d)); reflexivity.
Qed.

(** Whatever the advisor returns is a listed branch or a default branch
    reported by repos.get; whatever it throws is a failure of repos.get;
    it never exits. *)
Lemma determineBranchWithAI_outcome env data context prompt w :
  match fst (determineBranchWithAI env data context prompt w) with
  | Returned s =>
      (exists k, repos_get env k = Resolved s)
      \/ (exists branches,
             repos_listBranches env = Resolved branches /\ In s branches)
  | Thrown e => exists k, repos_get env k = Rejected e
  | Exited _ => False
  end.
Proof.
  assert (Hfallback :
    match fst (octokit_repos_get env (bump w)) with
    | Returned s =>
        (exists k, repos_get env k = Resolved s)
        \/ (exists branches,
               repos_listBranches env = Resolved branches /\ In s branches)
    | Thrown e => exists k, repos_get env k = Rejected e
    | Exited _ => False
    end).
  { destruct (octokit_repos_get_cases env (bump w))
      as [(d & H & ->)|(e & H & ->)]; simpl; eauto. }
  destruct (authenticated env) eqn:Hauth.
  - rewrite determineBranchWithAI_authenticated by assumption.
    destruct (repos_get env (repos_get_calls w)) as [d|e] eqn:Hd;
      [|assumption].
    destruct (repos_listBranches env) as [branches|e] eqn:Hl; [|assumption].
    destruct (messages_create env _ _) as [content|e]; [|assumption].
    destruct (includes branches (suggestion content d)) eqn:Hin; simpl.
    + right. exists branches. split; [reflexivity|].
      now apply includes_In.
    + left. eauto.
  - rewrite determineBranchWithAI_unauthenticated by assumption.
    destruct (repos_get env (repos_get_calls w)) as [d|e] eqn:Hd;
      [simpl; eauto|assumption].
Qed.

(** C3, as the code has it.  The source branch of setupBranch is the
    configured base branch or a default branch reported by repos.get; the
    advisor's answer is a member of the fetched branch list or, again, a
    reported default branch.  A suggestion that is not in the fetched list
    is dropped and the default branch reported by repos.get is returned in
    its place. *)
Theorem resolver_output_membership :
  forall env data context prompt w,
    (forall s w',
        sourceBranch env context w = (Returned s, w') ->
        Inputs.baseBranch (Context.inputs context) = Some s
        \/ exists k, repos_get env k = Resolved s)
    /\ (forall s w',
        determineBranchWithAI env data context prompt w = (Returned s, w') ->
        (exists branches,
            repos_listBranches env = Resolved branches /\ In s branches)
        \/ exists k, repos_get env k = Resolved s)
    /\ (forall d branches content,
        authenticated env = true ->
        repos_get env (repos_get_calls w) = Resolved d ->
        repos_listBranches env = Resolved branches ->
        messages_create env (systemPrompt context prompt d branches)
                        (userPrompt data context) = Resolved content ->
        ~ In (suggestion content d) branches ->
        determineBranchWithAI env data context prompt w
        = (Returned d, bump w)).
Proof.
  intros env data context prompt w. repeat split.
  - intros s w' H.
    destruct (sourceBranch_cases env context w) as [(b & Hb & _ & E)|[_ E]].
    + left. congruence.
    + right. rewrite E in H.
      destruct (octokit_repos_get_cases env w)
        as [(d & Hd & E')|(e & _ & E')]; rewrite E' in H.
      * injection H as <- _. eauto.
      * discriminate.
  - intros s w' H.
    pose proof (determineBranchWithAI_outcome env data context prompt w) as O.
    rewrite H in O. simpl in O. tauto.
  - intros d branches content Hauth Hd Hl Hc Hnot.
    rewrite determineBranchWithAI_authenticated by assumption.
    rewrite Hd, Hl, Hc.
    apply includes_not_In in Hnot. rewrite Hnot. reflexivity.
Qed.

(** Scenario D: the advisor answers hotfix-9, which is not a branch; the
    default branch main is used. *)
Lemma resolver_output_membership_witness :
  determineBranchWithAI Scenario.envD Scenario.issueD Scenario.contextD
    "Use the release branch for hotfixes" init
  = (Returned "main", bump init).
Proof.
  apply (proj2 (proj2 (resolver_output_membership Scenario.envD
           Scenario.issueD Scenario.contextD
           "Use the release branch for hotfixes" init))
           "main" ["develop"; "main"] [TextBlock "hotfix-9"]);
    try reflexivity.
  apply includes_not_In. reflexivity.
Defined.

(** C3 as stated fails: in a repository whose first page of branches does
    not show the default branch, both the advisor and the source branch
    of setupBranch come out as main, which is neither on the fetched list
    nor configured. *)
Lemma resolver_output_outside_branch_list :
  determineBranchWithAI Scenario.envLarge Scenario.issueD Scenario.contextD
    "Use the release branch for hotfixes" init
  = (Returned "main", bump init)
  /\ sourceBranch Scenario.envLarge Scenario.contextD init
     = (Returned "main", bump init)
  /\ repos_listBranches Scenario.envLarge = Resolved Scenario.firstPage
  /\ ~ (In "main" Scenario.firstPage
        \/ Inputs.baseBranch (Context.inputs Scenario.contextD) = Some "main").
Proof.
  repeat split; try (vm_compute; reflexivity).
  intros [H|H].
  - apply includes_In in H. vm_compute in H. discriminate.
  - discriminate.
Qed.

Lemma suggestion_noAnswer content d branches :
  noAnswer content = true -> ~ In "" branches ->
  includes branches (suggestion content d) = true ->
  suggestion content d = d.
Proof.
  destruct content as [|[text|ty] rest]; simpl; try reflexivity.
  intros E Hno Hin. apply String.eqb_eq in E. rewrite E in Hin.
  apply includes_In in Hin. contradiction.
Qed.

(** C9, as the code has it.  The advisor never exits the process, and the
    only errors that leave it are failures of the default-branch fetch it
    falls back on.  While repos.get answers, the advisor returns a
    branch: missing credentials, a failed branch listing, a failed
    completion request and a completion without a usable answer all yield
    the default branch, and so does a failure of the advisor's own first
    repos.get when the fetch of the fallback succeeds.  The placeholder in
    setupBranch asks repos.get and nothing else. *)
Theorem determineBranchWithAI_degrades :
  forall env data context prompt w,
    let run := determineBranchWithAI env data context prompt w in
    let first := repos_get env (repos_get_calls w) in
    let second := repos_get env (S (repos_get_calls w)) in
    (forall c, fst run <> Exited c)
    /\ (forall e, fst run = Thrown e -> exists k, repos_get env k = Rejected e)
    /\ (forall e d, first = Rejected e -> second = Resolved d ->
                    fst run = Returned d)
    /\ (forall d,
        first = Resolved d -> second = Resolved d ->
        (exists s, fst run = Returned s)
        /\ (authenticated env = false -> fst run = Returned d)
        /\ (forall e, repos_listBranches env = Rejected e ->
                      fst run = Returned d)
        /\ (forall branches e,
               repos_listBranches env = Resolved branches ->
               messages_create env (systemPrompt context prompt d branches)
                               (userPrompt data context) = Rejected e ->
               fst run = Returned d)
        /\ (forall branches content,
               repos_listBranches env = Resolved branches ->
               messages_create env (systemPrompt context prompt d branches)
                               (userPrompt data context) = Resolved content ->
               noAnswer content = true -> ~ In "" branches ->
               fst run = Returned d)
        /\ (truthy (Inputs.baseBranch (Context.inputs context)) = false ->
            truthy (Inputs.baseBranchPrompt (Context.inputs context)) = true ->
            sourceBranch env context w = (Returned d, bump w))).
Proof.
  intros env data context prompt w run first second.
  pose proof (determineBranchWithAI_outcome env data context prompt w) as O.
  fold run in O.
  assert (Hfb : forall d, second = Resolved d ->
                octokit_repos_get env (bump w) = (Returned d, bump (bump w))).
  { intros d Hd. now apply octokit_repos_get_resolved. }
  split; [|split; [|split]].
  - intros c E. rewrite E in O. exact O.
  - intros e E. rewrite E in O. exact O.
  - intros e d H1 H2. unfold run.
    destruct (authenticated env) eqn:Hauth.
    + rewrite determineBranchWithAI_authenticated by assumption.
      fold first. rewrite H1, (Hfb _ H2). reflexivity.
    + rewrite determineBranchWithAI_unauthenticated by assumption.
      fold first. rewrite H1, (Hfb _ H2). reflexivity.
  - intros d H1 H2. specialize (Hfb _ H2).
    assert (Hcases :
      authenticated env = false /\ fst run = Returned d
      \/ authenticated env = true /\
         match repos_listBranches env with
         | Rejected _ => fst run = Returned d
         | Resolved branches =>
             match messages_create env
                     (systemPrompt context prompt d branches)
                     (userPrompt data context) with
             | Rejected _ => fst run = Returned d
             | Resolved content =>
                 fst run = Returned
                   (if includes branches (suggestion content d)
                    then suggestion content d else d)
             end
         end).
    { unfold run. destruct (authenticated env) eqn:Hauth; [right|left];
        (split; [reflexivity|]).
      - rewrite determineBranchWithAI_authenticated by assumption.
        fold first. rewrite H1.
        destruct (repos_listBranches env) as [branches|e];
          [|rewrite Hfb; reflexivity].
        destruct (messages_create env _ _) as [content|e];
          [|rewrite Hfb; reflexivity].
        destruct (includes branches (suggestion content d)); reflexivity.
      - rewrite determineBranchWithAI_unauthenticated by assumption.
        fold first. rewrite H1. reflexivity. }
    repeat split.
    + destruct Hcases as [[_ E]|[_ E]]; [eauto|].
      destruct (repos_listBranches env); [|eauto].
      destruct (messages_create env _ _); eauto.
    + intros Hauth. destruct Hcases as [[_ E]|[F _]]; congruence.
    + intros e Hl. destruct Hcases as [[_ E]|[_ E]]; [assumption|].
      rewrite Hl in E. exact E.
    + intros branches e Hl Hc. destruct Hcases as [[_ E]|[_ E]]; [assumption|].
      rewrite Hl, Hc in E. exact E.
    + intros branches content Hl Hc Hno Hempty.
      destruct Hcases as [[_ E]|[_ E]]; [assumption|].
      rewrite Hl, Hc in E. rewrite E.
      destruct (includes branches (suggestion content d)) eqn:Hin;
        [|reflexivity].
      f_equal. eapply suggestion_noAnswer; eassumption.
    + intros Hbase _.
      destruct (sourceBranch_cases env context w)
        as [(b & Hb & Hne & _)|[_ E]].
      * rewrite Hb in Hbase. apply truthy_Some in Hne. congruence.
      * rewrite E. now apply octokit_repos_get_resolved.
Qed.

(** Without credentials, and with the hosting service up, the advisor
    answers the default branch. *)
Lemma determineBranchWithAI_degrades_witness :
  fst (determineBranchWithAI Scenario.env Scenario.issueD Scenario.contextD
         "Use the release branch for hotfixes" init)
  = Returned "main".
Proof.
  exact (proj1 (proj2 (proj2 (proj2 (proj2 (determineBranchWithAI_degrades
           Scenario.env Scenario.issueD Scenario.contextD
           "Use the release branch for hotfixes" init))) "main"
           eq_refl eq_refl)) eq_refl).
Defined.

(** C9 as stated fails: with the hosting service down, the failure of
    repos.get inside the advisor is caught, the fallback asks repos.get
    again, and that failure reaches the caller; the placeholder in
    setupBranch does not catch at all. *)
Lemma determineBranchWithAI_propagates_failure :
  determineBranchWithAI Scenario.envDown Scenario.issueD Scenario.contextD
    "Use the release branch for hotfixes" init
  = (Thrown Scenario.unavailable, bump (bump init))
  /\ truthy (Inputs.baseBranchPrompt (Context.inputs Scenario.contextD))
     = true
  /\ sourceBranch Scenario.envDown Scenario.contextD init
     = (Thrown Scenario.unavailable, bump init).
Proof. repeat split. Qed.

(* ===================================================================== *)
(** ** The new branch *)
(* ===================================================================== *)

(** The guarded block of createBranch, once the source branch is known. *)
Lemma createBranch_resolved env context w src w1 :
  sourceBranch env context w = (Returned src, w1) ->
  let nb := newBranch (branchName env context) in
  createBranch env context w =
  match git_getRef env ("heads/" ++ src) with
  | Rejected _ => (Exited 1, w1)
  | Resolved _ =>
      if Inputs.useCommitSigning (Context.inputs context) then
        (Returned (BranchInfo.mk src (Some nb) src), withOutputs w1 nb src)
      else if git_status env (GitCheckoutNew nb) then
        (Returned (BranchInfo.mk src (Some nb) nb),
         withOutputs (withGit w1 (GitCheckoutNew nb)) nb src)
      else (Exited 1, withGit w1 (GitCheckoutNew nb))
  end%Z.
Proof.
  intros Hsrc nb. unfold createBranch. unfold bind at 1. rewrite Hsrc.
  fold nb. unfold try_catch, bind, octokit_getRef, await.
  destruct (git_getRef env ("heads/" ++ src)) as [sha|e]; simpl;
    [|reflexivity].
  destruct (Inputs.useCommitSigning (Context.inputs context)); simpl.
  - unfold withOutputs. simpl. rewrite <- app_assoc. reflexivity.
  - unfold git. fold (withGit w1 (GitCheckoutNew nb)).
    destruct (git_status env (GitCheckoutNew nb)); simpl; [|reflexivity].
    unfold withOutputs. simpl. rewrite <- app_assoc. reflexivity.
Qed.

(** When the source branch cannot be determined its error passes through
    createBranch: the fetch happens before the guarded block. *)
Lemma createBranch_unresolved env context w e w1 :
  sourceBranch env context w = (Thrown e, w1) ->
  createBranch env context w = (Thrown e, w1).
Proof.
  intros H. unfold createBranch. unfold bind at 1. rewrite H. reflexivity.
Qed.

Lemma sourceBranch_never_exits env context w c w1 :
  sourceBranch env context w <> (Exited c, w1).
Proof.
  destruct (sourceBranch_cases env context w) as [(b & _ & _ & E)|[_ E]];
    rewrite E; [discriminate|].
  destruct (octokit_repos_get_cases env w) as [(d & _ & E')|(e & _ & E')];
    rewrite E'; discriminate.
Qed.

Lemma setupBranch_createBranch env data context w :
  creationPath data context = true ->
  setupBranch env data context w = createBranch env context w.
Proof.
  unfold creationPath, setupBranch.
  destruct (Context.isPR context); simpl; [|reflexivity].
  intros ->. reflexivity.
Qed.

(** The only git command createBranch may issue is the creation of the
    new branch. *)
Lemma createBranch_shell env context w :
  let nb := newBranch (branchName env context) in
  shell (snd (createBranch env context w)) = shell w
  \/ shell (snd (createBranch env context w)) = shell w ++ [GitCheckoutNew nb].
Proof.
  intros nb.
  destruct (sourceBranch env context w) as [[src|e|c] w1] eqn:Hsrc.
  - destruct (sourceBranch_frame _ _ _ Hsrc) as [Hsh _].
    rewrite (createBranch_resolved _ _ _ Hsrc). fold nb.
    destruct (git_getRef env ("heads/" ++ src)); simpl; [|now left].
    destruct (Inputs.useCommitSigning (Context.inputs context)); simpl;
      [now left|].
    destruct (git_status env (GitCheckoutNew nb)); simpl; rewrite Hsh;
      now right.
  - destruct (sourceBranch_frame _ _ _ Hsrc) as [Hsh _].
    rewrite (createBranch_unresolved _ _ _ Hsrc). now left.
  - now apply sourceBranch_never_exits in Hsrc.
Qed.

(** C4.  A closed or merged pull request is not checked out: the only git
    command setupBranch may issue for it is the creation of the new
    branch, whose name is built with the entity kind pr.  Once the source
    branch is resolved and found on the remote, the new branch is created
    from it and the record names the source branch as baseBranch and the
    new branch as claudeBranch (with commit signing the creation is left
    to the file server, see C8). *)
Theorem setupBranch_closed_pr :
  forall env pr context w,
    Context.isPR context = true ->
    GitHubPullRequest.state pr = "CLOSED"
    \/ GitHubPullRequest.state pr = "MERGED" ->
    let i := Context.inputs context in
    let name :=
      (if Inputs.useTimestampSuffix i then
         Inputs.branchPrefix i ++ "pr-"
         ++ toString (Context.entityNumber context)
         ++ "-" ++ timestamp (now env)
       else
         Inputs.branchPrefix i ++ "pr-"
         ++ toString (Context.entityNumber context))%string
    in
    let nb := substring 0 50 (toLowerCase name) in
    let run := setupBranch env (PullRequestData pr) context w in
    (shell (snd run) = shell w
     \/ shell (snd run) = shell w ++ [GitCheckoutNew nb])
    /\ (forall src w1 sha,
           sourceBranch env context w = (Returned src, w1) ->
           git_getRef env ("heads/" ++ src) = Resolved sha ->
           git_status env (GitCheckoutNew nb) = true ->
           run =
           if Inputs.useCommitSigning i then
             (Returned (BranchInfo.mk src (Some nb) src),
              withOutputs w1 nb src)
           else
             (Returned (BranchInfo.mk src (Some nb) nb),
              withOutputs (withGit w1 (GitCheckoutNew nb)) nb src)).
Proof.
  intros env pr context w HPR Hst i name nb run.
  assert (Hnb : nb = newBranch (branchName env context)).
  { unfold nb, name, newBranch, branchName, entityType, i. rewrite HPR.
    reflexivity. }
  assert (Hrun : run = createBranch env context w).
  { unfold run. apply setupBranch_createBranch. unfold creationPath.
    simpl. destruct Hst as [-> | ->]; apply orb_true_r. }
  rewrite Hrun, Hnb. split.
  - apply createBranch_shell.
  - intros src w1 sha Hsrc Href Hgit.
    rewrite (createBranch_resolved _ _ _ Hsrc), Href.
    fold i. destruct (Inputs.useCommitSigning i); [reflexivity|].
    rewrite Hgit. reflexivity.
Qed.

(** Scenario B: closed pull request 7 yields the new branch claude-pr-7
    from main. *)
Lemma setupBranch_closed_pr_witness :
  setupBranch Scenario.env (PullRequestData Scenario.prB) Scenario.contextB
              init
  = (Returned (BranchInfo.mk "main" (Some "claude-pr-7") "claude-pr-7"),
     mkWorld [GitCheckoutNew "claude-pr-7"]
             [("CLAUDE_BRANCH", "claude-pr-7"); ("BASE_BRANCH", "main")] 1).
Proof.
  exact (proj2 (setupBranch_closed_pr Scenario.env Scenario.prB
                  Scenario.contextB init eq_refl (or_introl eq_refl))
               "main" (bump init) "3f2a9c1e" eq_refl eq_refl eq_refl).
Defined.

(** C6.  On the creation path, a source branch whose reference the remote
    does not have ends the run with exit code 1: nothing is returned, no
    git command is issued and no output is set.  Whenever the creation
    path does return, the record is complete (base, new and current
    branch) and both outputs have been set; whenever it does not return,
    no output has been set. *)
Theorem createBranch_ref_not_found :
  forall env data context w,
    creationPath data context = true ->
    let run := setupBranch env data context w in
    (forall src w1 e,
        sourceBranch env context w = (Returned src, w1) ->
        git_getRef env ("heads/" ++ src) = Rejected e ->
        run = (Exited 1%Z, w1)
        /\ shell w1 = shell w /\ outputs w1 = outputs w)
    /\ (forall r,
        fst run = Returned r ->
        exists nb,
          BranchInfo.claudeBranch r = Some nb
          /\ (BranchInfo.currentBranch r = nb
              \/ BranchInfo.currentBranch r = BranchInfo.baseBranch r)
          /\ outputs (snd run)
             = outputs w ++ [("CLAUDE_BRANCH", nb);
                             ("BASE_BRANCH", BranchInfo.baseBranch r)])
    /\ ((forall r, fst run <> Returned r) ->
        outputs (snd run) = outputs w).
Proof.
  intros env data context w Hpath run.
  assert (Hrun : run = createBranch env context w)
    by now apply setupBranch_createBranch.
  rewrite Hrun. clear Hrun run.
  split; [|split].
  - intros src w1 e Hsrc Href.
    rewrite (createBranch_resolved _ _ _ Hsrc), Href.
    split; [reflexivity|]. eapply sourceBranch_frame; eassumption.
  - intros r.
    destruct (sourceBranch env context w) as [[src|e|c] w1] eqn:Hsrc.
    + destruct (sourceBranch_frame _ _ _ Hsrc) as [_ Hout].
      rewrite (createBranch_resolved _ _ _ Hsrc).
      destruct (git_getRef env ("heads/" ++ src)); simpl; [|discriminate].
      destruct (Inputs.useCommitSigning (Context.inputs context)); simpl.
      * intros [= <-]. eexists. simpl. rewrite Hout. eauto.
      * destruct (git_status env _); simpl; [|discriminate].
        intros [= <-]. eexists. simpl. rewrite Hout. eauto.
    + rewrite (createBranch_unresolved _ _ _ Hsrc). discriminate.
    + now apply sourceBranch_never_exits in Hsrc.
  - destruct (sourceBranch env context w) as [[src|e|c] w1] eqn:Hsrc.
    + destruct (sourceBranch_frame _ _ _ Hsrc) as [_ Hout].
      rewrite (createBranch_resolved _ _ _ Hsrc).
      destruct (git_getRef env ("heads/" ++ src)); simpl; [|now intros _].
      destruct (Inputs.useCommitSigning (Context.inputs context)); simpl.
      * intros H. now destruct (H _ eq_refl).
      * destruct (git_status env _); simpl; [|now intros _].
        intros H. now destruct (H _ eq_refl).
    + destruct (sourceBranch_frame _ _ _ Hsrc) as [_ Hout].
      rewrite (createBranch_unresolved _ _ _ Hsrc). now intros _.
    + now apply sourceBranch_never_exits in Hsrc.
Qed.

(** The configured base branch develop does not exist on the remote: the
    run exits with code 1 and leaves nothing behind. *)
Lemma createBranch_ref_not_found_witness :
  setupBranch Scenario.env Scenario.issueD Scenario.contextE init
  = (Exited 1%Z, init).
Proof.
  exact (proj1 (proj1 (createBranch_ref_not_found Scenario.env
                         Scenario.issueD Scenario.contextE init eq_refl)
                      "develop" init Scenario.notFound eq_refl eq_refl)).
Defined.

(** C8.  On the creation path, with the source branch resolved and found
    on the remote: under commit signing no git command is issued, the
    record stays on the source branch and names the generated branch as
    claudeBranch; without commit signing the one git command issued is
    [git checkout -b] of the generated branch, which becomes the current
    branch.  Both ways the two outputs are set. *)
Theorem createBranch_commit_signing :
  forall env data context w src w1 sha,
    creationPath data context = true ->
    sourceBranch env context w = (Returned src, w1) ->
    git_getRef env ("heads/" ++ src) = Resolved sha ->
    let nb := newBranch (branchName env context) in
    let run := setupBranch env data context w in
    (Inputs.useCommitSigning (Context.inputs context) = true ->
     run = (Returned (BranchInfo.mk src (Some nb) src), withOutputs w1 nb src)
     /\ shell (snd run) = shell w)
    /\ (Inputs.useCommitSigning (Context.inputs context) = false ->
        git_status env (GitCheckoutNew nb) = true ->
        run = (Returned (BranchInfo.mk src (Some nb) nb),
               withOutputs (withGit w1 (GitCheckoutNew nb)) nb src)
        /\ shell (snd run) = shell w ++ [GitCheckoutNew nb]).
Proof.
  intros env data context w src w1 sha Hpath Hsrc Href nb run.
  assert (Hrun : run = createBranch env context w)
    by now apply setupBranch_createBranch.
  destruct (sourceBranch_frame _ _ _ Hsrc) as [Hsh _].
  rewrite Hrun, (createBranch_resolved _ _ _ Hsrc), Href. fold nb.
  split.
  - intros ->. simpl. auto.
  - intros -> ->. simpl. rewrite Hsh. auto.
Qed.

(** Issue 12 under commit signing stays on main; issue 101 without it is
    moved to the new branch. *)
Lemma createBranch_commit_signing_witness :
  setupBranch Scenario.env Scenario.issueD Scenario.contextS init
  = (Returned (BranchInfo.mk "main" (Some "claude-issue-12") "main"),
     mkWorld [] [("CLAUDE_BRANCH", "claude-issue-12");
                 ("BASE_BRANCH", "main")] 1)
  /\ setupBranch Scenario.env Scenario.issueD Scenario.contextC init
     = (Returned (BranchInfo.mk "main" (Some "claude-issue-101")
                                "claude-issue-101"),
        mkWorld [GitCheckoutNew "claude-issue-101"]
                [("CLAUDE_BRANCH", "claude-issue-101");
                 ("BASE_BRANCH", "main")] 1).
Proof.
  split.
  - exact (proj1 (proj1 (createBranch_commit_signing Scenario.env
             Scenario.issueD Scenario.contextS init (sha := "3f2a9c1e")
             eq_refl eq_refl eq_refl) eq_refl)).
  - exact (proj1 (proj2 (createBranch_commit_signing Scenario.env
             Scenario.issueD Scenario.contextC init (sha := "3f2a9c1e")
             eq_refl eq_refl eq_refl) eq_refl eq_refl)).
Defined.

(* ===================================================================== *)
(** ** The name of the new branch *)
(* ===================================================================== *)

Lemma toLowerCase_ascii_idempotent c :
  toLowerCase_ascii (toLowerCase_ascii c) = toLowerCase_ascii c.
Proof.
  destruct c as [[] [] [] [] [] [] [] []]; vm_compute; reflexivity.
Qed.

Lemma toLowerCase_ascii_lower c : isUpperCase (toLowerCase_ascii c) = false.
Proof.
  destruct c as [[] [] [] [] [] [] [] []]; vm_compute; reflexivity.
Qed.

Lemma toLowerCase_idempotent s : toLowerCase (toLowerCase s) = toLowerCase s.
Proof.
  induction s as [|c s IH]; simpl; [reflexivity|].
  now rewrite toLowerCase_ascii_idempotent, IH.
Qed.

Lemma substring_toLowerCase m s :
  substring 0 m (toLowerCase s) = toLowerCase (substring 0 m s).
Proof.
  revert s. induction m as [|m IH]; intros [|c s]; simpl; try reflexivity.
  now rewrite IH.
Qed.

Lemma substring_idempotent m s :
  substring 0 m (substring 0 m s) = substring 0 m s.
Proof.
  revert s. induction m as [|m IH]; intros [|c s]; simpl; try reflexivity.
  now rewrite IH.
Qed.

Lemma substring_length m s : (String.length (substring 0 m s) <= m)%nat.
Proof.
  revert s. induction m as [|m IH]; intros [|c s]; simpl; try lia.
  specialize (IH s). lia.
Qed.

Lemma substring_InStr m s c : InStr c (substring 0 m s) -> InStr c s.
Proof.
  revert s. induction m as [|m IH]; intros [|d s]; simpl; try tauto.
  intros [H|H]; [now left|right; now apply IH].
Qed.

Lemma toLowerCase_InStr s c : InStr c (toLowerCase s) -> isUpperCase c = false.
Proof.
  induction s as [|d s IH]; simpl; [tauto|].
  intros [->|H]; [apply toLowerCase_ascii_lower|now apply IH].
Qed.

(** The part of the naming rule that line 133 does enforce: the name is
    cut to 50 characters, has no upper-case letter, and taking it through
    line 133 again changes nothing. *)
Lemma newBranch_idempotent s : newBranch (newBranch s) = newBranch s.
Proof.
  unfold newBranch.
  now rewrite <- substring_toLowerCase, toLowerCase_idempotent,
    substring_idempotent.
Qed.

Lemma newBranch_length s : (String.length (newBranch s) <= 50)%nat.
Proof. apply substring_length. Qed.

Lemma newBranch_lower s c : InStr c (newBranch s) -> isUpperCase c = false.
Proof.
  unfold newBranch. intros H. apply substring_InStr in H.
  now apply toLowerCase_InStr in H.
Qed.

(** C7 at a branch prefix with an underscore.  The comment above line 133
    promises a name without underscores; the line lower-cases and cuts,
    and the underscore of the prefix claude_ reaches the branch that
    setupBranch creates for issue 5. *)
Theorem newBranch_keeps_underscore :
  let nb := newBranch (branchName Scenario.env Scenario.contextU) in
  nb = "claude_issue-5"
  /\ InStr "_"%char nb
  /\ setupBranch Scenario.env Scenario.issueU Scenario.contextU init
     = (Returned (BranchInfo.mk "main" (Some "claude_issue-5")
                                "claude_issue-5"),
        mkWorld [GitCheckoutNew "claude_issue-5"]
                [("CLAUDE_BRANCH", "claude_issue-5");
                 ("BASE_BRANCH", "main")] 1).
Proof.
  repeat split. vm_compute. tauto.
Qed.

(* ===================================================================== *)
(** ** prepareContext on an assigned issue *)
(* ===================================================================== *)

Lemma toString_nonempty n : toString n <> "".
Proof.
  unfold toString.
  assert (H : N.to_uint n <> Decimal.Nil).
  { destruct n as [|p]; simpl; [discriminate|].
    apply DecimalPos.Unsigned.to_uint_nonnil. }
  destruct (N.to_uint n); simpl; congruence.
Qed.

Lemma require_present A (s message : string) (k : string -> Result A) :
  s <> "" -> require (Some s) message k = k s.
Proof.
  intros H. unfold require. apply String.eqb_neq in H. now rewrite H.
Qed.

(** The five checks that precede the dispatch on the action of an issues
    event. *)
Lemma eventData_issues context baseBranch claudeBranch action b c :
  Context.eventName context = "issues" ->
  Context.eventAction context = Some action -> action <> "" ->
  Context.isPR context = false ->
  baseBranch = Some b -> b <> "" ->
  claudeBranch = Some c -> c <> "" ->
  let issueNumber := toString (Context.entityNumber context) in
  let i := Context.inputs context in
  eventData context baseBranch claudeBranch =
  if action =? "assigned" then
    if negb (truthy (Inputs.assigneeTrigger i))
       && negb (truthy (Inputs.directPrompt i))
    then Throw (Error "ASSIGNEE_TRIGGER is required for issue assigned event")
    else Ok (IssueAssignedEvent issueNumber b c
               (spread (Inputs.assigneeTrigger i)))
  else if action =? "labeled" then
    require (Inputs.labelTrigger i)
      "LABEL_TRIGGER is required for issue labeled event"
      (fun labelTrigger =>
         Ok (IssueLabeledEvent issueNumber b c labelTrigger))
  else if action =? "opened" then Ok (IssueOpenedEvent issueNumber b c)
  else Throw (Error ("Unsupported issue action: " ++ action)).
Proof.
  intros Hname Haction Hane HPR -> Hb -> Hc issueNumber i.
  unfold eventData. rewrite Hname, Haction, HPR.
  change ("issues" =? "pull_request_review_comment") with false.
  change ("issues" =? "pull_request_review") with false.
  change ("issues" =? "issue_comment") with false.
  change ("issues" =? "issues") with true.
  cbv beta iota zeta. cbn [negb guard].
  rewrite !require_present by (assumption || apply toString_nonempty).
  reflexivity.
Qed.

(** C5, as the code has it.  For an issues event with action assigned on
    an issue, prepared with a base branch and a working branch: without
    assignee trigger and without direct prompt prepareContext throws the
    error that names ASSIGNEE_TRIGGER; with either of them it returns the
    assigned variant, which carries the issue number, both branches and
    the assignee trigger if there is one. *)
Theorem prepareContext_issue_assigned :
  forall context claudeCommentId baseBranch claudeBranch b c,
    Context.eventName context = "issues" ->
    Context.eventAction context = Some "assigned" ->
    Context.isPR context = false ->
    baseBranch = Some b -> b <> "" ->
    claudeBranch = Some c -> c <> "" ->
    let i := Context.inputs context in
    (truthy (Inputs.assigneeTrigger i) = false ->
     truthy (Inputs.directPrompt i) = false ->
     prepareContext context claudeCommentId baseBranch claudeBranch
     = Throw (Error "ASSIGNEE_TRIGGER is required for issue assigned event"))
    /\ (truthy (Inputs.assigneeTrigger i) = true
        \/ truthy (Inputs.directPrompt i) = true ->
        prepareContext context claudeCommentId baseBranch claudeBranch
        = Ok (PreparedContext.mk
                (commonFields context claudeCommentId claudeBranch)
                (IssueAssignedEvent
                   (toString (Context.entityNumber context)) b c
                   (spread (Inputs.assigneeTrigger i))))).
Proof.
  intros context cid baseBranch claudeBranch b c Hname Haction HPR
         Hbase Hb Hclaude Hc i.
  unfold prepareContext.
  rewrite (eventData_issues context Hname Haction
             ltac:(discriminate) HPR Hbase Hb Hclaude Hc).
  fold i. simpl. split.
  - intros -> ->. reflexivity.
  - intros [-> | ->]; simpl; rewrite ?andb_false_r; reflexivity.
Qed.

(** Scenario C, after the branch setup of issue 101: without assignee
    trigger the error names ASSIGNEE_TRIGGER; with the trigger claude-bot
    the assigned variant is built. *)
Lemma prepareContext_issue_assigned_witness :
  prepareContext Scenario.contextC "12345"
                 (Some "main") (Some "claude-issue-101")
  = Throw (Error "ASSIGNEE_TRIGGER is required for issue assigned event")
  /\ prepareContext Scenario.contextC' "12345"
                    (Some "main") (Some "claude-issue-101")
     = Ok (PreparedContext.mk
             (commonFields Scenario.contextC' "12345"
                           (Some "claude-issue-101"))
             (IssueAssignedEvent "101" "main" "claude-issue-101"
                                 (Some "claude-bot"))).
Proof.
  assert (Hb : "main" <> "") by discriminate.
  assert (Hc : "claude-issue-101" <> "") by discriminate.
  split.
  - exact (proj1 (prepareContext_issue_assigned Scenario.contextC "12345"
                    eq_refl eq_refl eq_refl eq_refl Hb eq_refl Hc)
                 eq_refl eq_refl).
  - exact (proj2 (prepareContext_issue_assigned Scenario.contextC' "12345"
                    eq_refl eq_refl eq_refl eq_refl Hb eq_refl Hc)
                 (or_introl eq_refl)).
Defined.

(** C5 as stated fails: the same two events, prepared without branches,
    both stop at the base branch; the assignee trigger is neither cited
    in the first case nor sufficient in the second. *)
Lemma prepareContext_assigned_without_branches :
  Context.eventName Scenario.contextC = "issues"
  /\ Context.eventAction Scenario.contextC = Some "assigned"
  /\ truthy (Inputs.assigneeTrigger (Context.inputs Scenario.contextC))
     = false
  /\ truthy (Inputs.directPrompt (Context.inputs Scenario.contextC)) = false
  /\ prepareContext Scenario.contextC "12345" None None
     = Throw (Error "BASE_BRANCH is required for issues event")
  /\ Context.eventName Scenario.contextC' = "issues"
  /\ Context.eventAction Scenario.contextC' = Some "assigned"
  /\ truthy (Inputs.assigneeTrigger (Context.inputs Scenario.contextC'))
     = true
  /\ prepareContext Scenario.contextC' "12345" None None
     = Throw (Error "BASE_BRANCH is required for issues event").
Proof. repeat split. Qed.

(* ===================================================================== *)
(** ** The disallowed tools *)
(* ===================================================================== *)

(** The string is the comma-joined list of the remaining defaults followed
    by the custom tools. *)
Lemma buildDisallowedToolsString_join custom allowed :
  buildDisallowedToolsString custom allowed
  = join "," (remainingDefaults allowed ++ tools custom).
Proof.
  unfold buildDisallowedToolsString, remainingDefaults, DISALLOWED_TOOLS.
  destruct allowed as [[|a l]|]; destruct custom as [[|c l']|];
    cbn [tools filter];
    try reflexivity;
    destruct (includes (a :: l) "WebSearch");
    destruct (includes (a :: l) "WebFetch");
    reflexivity.
Qed.

Lemma split_plain x : ~ InStr ","%char x -> split "," x = [x].
Proof.
  induction x as [|c x IH]; simpl; [reflexivity|].
  intros H. destruct (Ascii.eqb_spec c ","%char) as [->|_].
  - exfalso. apply H. now left.
  - rewrite IH by tauto. reflexivity.
Qed.

Lemma split_append x r :
  ~ InStr ","%char x ->
  split "," (x ++ String ","%char r) = x :: split "," r.
Proof.
  induction x as [|c x IH]; simpl; [reflexivity|].
  intros H. destruct (Ascii.eqb_spec c ","%char) as [->|_].
  - exfalso. apply H. now left.
  - rewrite IH by tauto. reflexivity.
Qed.

(** Splitting at the commas recovers the entries, provided no entry has a
    comma of its own. *)
Lemma split_join l :
  l <> [] -> (forall x, In x l -> ~ InStr ","%char x) ->
  split "," (join "," l) = l.
Proof.
  induction l as [|x l IH]; [congruence|].
  intros _ H. destruct l as [|y l].
  - simpl. apply split_plain, H. now left.
  - change (join "," (x :: y :: l))
      with (x ++ String ","%char (join "," (y :: l)))%string.
    rewrite split_append by (apply H; now left).
    rewrite IH; [reflexivity|discriminate|].
    intros z Hz. apply H. now right.
Qed.

Lemma remainingDefaults_spec allowed tool :
  In tool (remainingDefaults allowed)
  <-> In tool DISALLOWED_TOOLS /\ ~ In tool (tools allowed).
Proof.
  unfold remainingDefaults. rewrite filter_In, negb_true_iff.
  now rewrite includes_not_In.
Qed.

(** C10, as the code has it.  The output lists, comma-joined, the default
    tools that are not allowed, followed by the custom disallowed tools.
    A default tool that the caller allows is therefore no entry of the
    output unless the caller also lists it as a custom disallowed tool
    (entries are read by splitting at commas, custom tools having none).
    Without custom disallowed tools and with every default allowed the
    output is empty. *)
Theorem buildDisallowedToolsString_omits_allowed_defaults :
  forall custom allowed,
    buildDisallowedToolsString custom allowed
    = join "," (remainingDefaults allowed ++ tools custom)
    /\ (forall tool,
           In tool DISALLOWED_TOOLS ->
           In tool (tools allowed) ->
           ~ In tool (tools custom) ->
           (forall c, In c (tools custom) -> ~ InStr ","%char c) ->
           ~ In tool (split "," (buildDisallowedToolsString custom allowed)))
    /\ (tools custom = [] ->
        (forall tool, In tool DISALLOWED_TOOLS -> In tool (tools allowed)) ->
        buildDisallowedToolsString custom allowed = "").
Proof.
  intros custom allowed.
  pose proof (buildDisallowedToolsString_join custom allowed) as E.
  split; [exact E|split].
  - intros tool Hdef Hallowed Hcustom Hplain. rewrite E.
    destruct (remainingDefaults allowed ++ tools custom) as [|x l] eqn:El.
    + simpl. intros [<-|[]].
      unfold DISALLOWED_TOOLS in Hdef. simpl in Hdef.
      destruct Hdef as [H|[H|[]]]; discriminate.
    + rewrite split_join; [| discriminate |].
      * rewrite <- El, in_app_iff, remainingDefaults_spec. tauto.
      * intros y Hy. rewrite <- El in Hy. apply in_app_iff in Hy.
        destruct Hy as [Hy|Hy]; [|now apply Hplain].
        apply remainingDefaults_spec in Hy. destruct Hy as [Hy _].
        unfold DISALLOWED_TOOLS in Hy. simpl in Hy.
        destruct Hy as [<-|[<-|[]]]; simpl; intuition discriminate.
  - intros Hnone Hall. rewrite E, Hnone, app_nil_r.
    assert (Hempty : remainingDefaults allowed = []).
    { destruct (remainingDefaults allowed) as [|x l] eqn:El; [reflexivity|].
      assert (Hx : In x (remainingDefaults allowed))
        by (rewrite El; now left).
      apply remainingDefaults_spec in Hx. destruct Hx as [Hd Hn].
      now destruct (Hn (Hall _ Hd)). }
    rewrite Hempty. reflexivity.
Qed.

(** WebSearch is allowed and not custom-disallowed: it is no entry of the
    output; with both defaults allowed and no custom tools the output is
    empty. *)
Lemma buildDisallowedToolsString_omits_allowed_defaults_witness :
  ~ In "WebSearch"
       (split "," (buildDisallowedToolsString
                     (Some ["Bash(rm:*)"]) (Some ["WebSearch"; "Edit"])))
  /\ buildDisallowedToolsString None (Some ["WebSearch"; "WebFetch"]) = "".
Proof.
  split.
  - apply (proj1 (proj2 (buildDisallowedToolsString_omits_allowed_defaults
                           (Some ["Bash(rm:*)"])
                           (Some ["WebSearch"; "Edit"])))).
    + simpl; tauto.
    + simpl; tauto.
    + simpl. intros [H|[]]. discriminate.
    + simpl. intros c [<-|[]]. simpl. intuition discriminate.
  - apply (proj2 (proj2 (buildDisallowedToolsString_omits_allowed_defaults
                           None (Some ["WebSearch"; "WebFetch"])))).
    + reflexivity.
    + simpl. tauto.
Defined.

(** C10 as stated fails: WebSearch is allowed by the caller, and is still
    an entry of the output, because the caller also lists it as a custom
    disallowed tool. *)
Lemma buildDisallowedToolsString_keeps_custom :
  In "WebSearch" DISALLOWED_TOOLS
  /\ In "WebSearch" (tools (Some ["WebSearch"]))
  /\ buildDisallowedToolsString (Some ["WebSearch"]) (Some ["WebSearch"])
     = "WebFetch,WebSearch"
  /\ In "WebSearch"
        (split "," (buildDisallowedToolsString (Some ["WebSearch"])
                                               (Some ["WebSearch"]))).
Proof.
  repeat split; vm_compute; tauto.
Qed.

(* ===================================================================== *)
(** * Further properties *)
(* ===================================================================== *)

(** ** The allowed tools *)

Lemma string_append_assoc (a b c : string) :
  ((a ++ b) ++ c)%string = (a ++ (b ++ c))%string.
Proof. induction a as [|x a IH]; simpl; [reflexivity|now rewrite IH]. Qed.

Lemma join_app sep l1 l2 :
  l1 <> [] -> l2 <> [] ->
  join sep (l1 ++ l2) = (join sep l1 ++ sep ++ join sep l2)%string.
Proof.
  induction l1 as [|x l1 IH]; [congruence|].
  intros _ H2. destruct l1 as [|y l1].
  - destruct l2; [congruence|reflexivity].
  - change (join sep ((x :: y :: l1) ++ l2))
      with (x ++ sep ++ join sep ((y :: l1) ++ l2))%string.
    rewrite IH by (discriminate || assumption).
    change (join sep (x :: y :: l1))
      with (x ++ sep ++ join sep (y :: l1))%string.
    now rewrite !string_append_assoc.
Qed.

Lemma baseTools_nonempty a s p : baseTools a s p <> [].
Proof. unfold baseTools, BASE_ALLOWED_TOOLS. discriminate. Qed.

Lemma buildAllowedToolsString_join custom a s p :
  buildAllowedToolsString custom a s p
  = join "," (baseTools a s p ++ tools custom).
Proof.
  unfold buildAllowedToolsString.
  destruct custom as [[|c l]|]; cbn [tools]; rewrite ?app_nil_r;
    try reflexivity.
  now rewrite join_app by (apply baseTools_nonempty || discriminate).
Qed.

(** A boolean reading of [InStr], to decide it on the built-in names. *)
Lemma InStr_comma_existsb s :
  InStr ","%char s ->
  existsb (Ascii.eqb ","%char) (list_ascii_of_string s) = true.
Proof.
  induction s as [|c s IH]; simpl; [tauto|].
  intros [<-|H]; [reflexivity|]. rewrite IH by assumption. apply orb_true_r.
Qed.

Lemma plain_by_computation s :
  existsb (Ascii.eqb ","%char) (list_ascii_of_string s) = false ->
  ~ InStr ","%char s.
Proof. intros H Hc. apply InStr_comma_existsb in Hc. congruence. Qed.

Lemma not_In_by_computation l x : includes l x = false -> ~ In x l.
Proof. apply includes_not_In. Qed.

Lemma baseTools_plain a s p x : In x (baseTools a s p) -> ~ InStr ","%char x.
Proof.
  intros Hx Hc. apply InStr_comma_existsb in Hc.
  assert (Hall : forallb (fun y => negb (existsb (Ascii.eqb ","%char)
                                           (list_ascii_of_string y)))
                         (baseTools a s p) = true)
    by (destruct a, s, p; vm_compute; reflexivity).
  rewrite forallb_forall in Hall. specialize (Hall _ Hx).
  rewrite Hc in Hall. discriminate.
Qed.

(** Split at the commas, the allowed-tools string gives back the built-in
    tools followed by the custom tools, in the order in which they were
    pushed; custom tools are taken to hold no comma. *)
Theorem buildAllowedToolsString_entries :
  forall custom a s p,
    (forall c, In c (tools custom) -> ~ InStr ","%char c) ->
    split "," (buildAllowedToolsString custom a s p)
    = baseTools a s p ++ tools custom.
Proof.
  intros custom a s p Hplain.
  rewrite buildAllowedToolsString_join. apply split_join.
  - intros E. apply app_eq_nil in E. now apply (baseTools_nonempty (proj1 E)).
  - intros x Hx. apply in_app_iff in Hx. destruct Hx as [Hx|Hx].
    + exact (@baseTools_plain _ _ _ _ Hx).
    + now apply Hplain.
Qed.

Lemma buildAllowedToolsString_entries_witness :
  split "," (buildAllowedToolsString (Some ["Bash(npm test)"; "WebSearch"])
                                     false true false)
  = ["Edit"; "MultiEdit"; "Glob"; "Grep"; "LS"; "Read"; "Write";
     "mcp__github_comment__update_claude_comment";
     "mcp__github_file_ops__commit_files";
     "mcp__github_file_ops__delete_files";
     "Bash(npm test)"; "WebSearch"].
Proof.
  apply (buildAllowedToolsString_entries
           (Some ["Bash(npm test)"; "WebSearch"]) false true false).
  intros c [<-|[<-|[]]]; apply plain_by_computation; reflexivity.
Defined.



(** The CI tools are granted exactly when the caller asks for the actions
    tools or lists them, and the pull request tools exactly when pull
    request creation is on or the caller lists them; the seven basic
    tools and the comment tool are granted in every case. *)
Theorem buildAllowedToolsString_gating :
  forall custom a s p,
    (forall c, In c (tools custom) -> ~ InStr ","%char c) ->
    let granted := split "," (buildAllowedToolsString custom a s p) in
    (forall t, In t ["mcp__github_ci__get_ci_status";
                     "mcp__github_ci__get_workflow_run_details";
                     "mcp__github_ci__download_job_log"] ->
               (In t granted <-> a = true \/ In t (tools custom)))
    /\ (forall t, In t ["mcp__github__create_pull_request";
                        "mcp__github__update_pull_request"] ->
                  (In t granted <-> p = true \/ In t (tools custom)))
    /\ (forall t, In t BASE_ALLOWED_TOOLS -> In t granted)
    /\ In "mcp__github_comment__update_claude_comment" granted.
Proof.
  intros custom a s p Hplain granted. unfold granted.
  rewrite buildAllowedToolsString_entries by assumption.
  split; [|split; [|split]].
  - intros t Ht. rewrite in_app_iff. split.
    + intros [H|H]; [|now right].
      left. destruct a; [reflexivity|exfalso].
      revert H. apply not_In_by_computation.
      simpl in Ht. destruct Ht as [<-|[<-|[<-|[]]]];
        destruct s, p; reflexivity.
    + intros [->|H]; [left|now right].
      apply includes_In.
      simpl in Ht. destruct Ht as [<-|[<-|[<-|[]]]];
        destruct s, p; reflexivity.
  - intros t Ht. rewrite in_app_iff. split.
    + intros [H|H]; [|now right].
      left. destruct p; [reflexivity|exfalso].
      revert H. apply not_In_by_computation.
      simpl in Ht. destruct Ht as [<-|[<-|[]]];
        destruct s, a; reflexivity.
    + intros [->|H]; [left|now right].
      apply includes_In.
      simpl in Ht. destruct Ht as [<-|[<-|[]]];
        destruct s, a; reflexivity.
  - intros t Ht. apply in_app_iff. left. unfold baseTools.
    apply in_app_iff. now left.
  - apply in_app_iff. left. apply includes_In.
    destruct a, s, p; reflexivity.
Qed.

Lemma buildAllowedToolsString_gating_witness :
  ~ In "mcp__github_ci__get_ci_status"
       (split "," (buildAllowedToolsString (Some ["Bash(npm test)"])
                                           false false true)).
Proof.
  intros H.
  assert (Hplain : forall c, In c (tools (Some ["Bash(npm test)"])) ->
                             ~ InStr ","%char c)
    by (intros c [<-|[]]; apply plain_by_computation; reflexivity).
  apply (proj1 (buildAllowedToolsString_gating (Some ["Bash(npm test)"])
                  false false true Hplain)
               "mcp__github_ci__get_ci_status") in H.
  - destruct H as [H|[H|[]]]; discriminate.
  - left. reflexivity.
Defined.

(** ** The two tool lists together *)

(** The entries of the disallowed-tools string, but for the empty entry
    of an empty string. *)
Lemma buildDisallowedToolsString_entries custom allowed t :
  (forall c, In c (tools custom) -> ~ InStr ","%char c) ->
  t <> "" ->
  In t (split "," (buildDisallowedToolsString custom allowed))
  <-> In t (remainingDefaults allowed ++ tools custom).
Proof.
  intros Hplain Ht. rewrite buildDisallowedToolsString_join.
  destruct (remainingDefaults allowed ++ tools custom) as [|x l] eqn:El.
  - simpl. split; [intros [E|[]]; congruence|tauto].
  - rewrite split_join; [reflexivity|discriminate|].
    intros y Hy. rewrite <- El in Hy. apply in_app_iff in Hy.
    destruct Hy as [Hy|Hy]; [|now apply Hplain].
    apply remainingDefaults_spec in Hy. destruct Hy as [Hy _].
    apply plain_by_computation.
    unfold DISALLOWED_TOOLS in Hy. simpl in Hy.
    destruct Hy as [<-|[<-|[]]]; reflexivity.
Qed.

(** createPrompt hands the same allowed tools to both builders.  For a
    default-disallowed tool that the caller does not disallow himself,
    the two strings then never disagree: the tool is an entry of the
    allowed string exactly when the caller allows it, and an entry of the
    disallowed string exactly when he does not. *)
Theorem tool_lists_agree :
  forall allowed disallowed a s p tool,
    (forall c, In c allowed -> ~ InStr ","%char c) ->
    (forall c, In c disallowed -> ~ InStr ","%char c) ->
    In tool DISALLOWED_TOOLS ->
    ~ In tool disallowed ->
    (In tool (split "," (buildAllowedToolsString (Some allowed) a s p))
     <-> In tool allowed)
    /\ (In tool (split "," (buildDisallowedToolsString (Some disallowed)
                                                        (Some allowed)))
        <-> ~ In tool allowed).
Proof.
  intros allowed disallowed a s p tool Ha Hd Hdef Hnot.
  assert (Hne : tool <> "").
  { unfold DISALLOWED_TOOLS in Hdef. simpl in Hdef.
    destruct Hdef as [<-|[<-|[]]]; discriminate. }
  assert (Hbase : ~ In tool (baseTools a s p)).
  { apply not_In_by_computation.
    unfold DISALLOWED_TOOLS in Hdef. simpl in Hdef.
    destruct Hdef as [<-|[<-|[]]]; destruct a, s, p; reflexivity. }
  split.
  - rewrite buildAllowedToolsString_entries by assumption.
    rewrite in_app_iff. cbn [tools]. tauto.
  - rewrite buildDisallowedToolsString_entries by assumption.
    rewrite in_app_iff, remainingDefaults_spec. cbn [tools]. tauto.
Qed.

Lemma tool_lists_agree_witness :
  In "WebFetch"
     (split "," (buildDisallowedToolsString (Some ["Bash(rm:*)"])
                                            (Some ["WebSearch"])))
  /\ In "WebSearch"
        (split "," (buildAllowedToolsString (Some ["WebSearch"])
                                            false false false)).
Proof.
  assert (Ha : forall c, In c ["WebSearch"] -> ~ InStr ","%char c)
    by (intros c [<-|[]]; apply plain_by_computation; reflexivity).
  assert (Hd : forall c, In c ["Bash(rm:*)"] -> ~ InStr ","%char c)
    by (intros c [<-|[]]; apply plain_by_computation; reflexivity).
  assert (Hn : forall t, ~ In t ["Bash(rm:*)"] <->
                         includes ["Bash(rm:*)"] t = false)
    by (intros t; symmetry; apply includes_not_In).
  split.
  - apply (proj2 (@tool_lists_agree ["WebSearch"] ["Bash(rm:*)"]
                    false false false "WebFetch" Ha Hd
                    (or_intror (or_introl eq_refl))
                    (proj2 (Hn "WebFetch") eq_refl))).
    apply not_In_by_computation. reflexivity.
  - apply (proj1 (@tool_lists_agree ["WebSearch"] ["Bash(rm:*)"]
                    false false false "WebSearch" Ha Hd
                    (or_introl eq_refl)
                    (proj2 (Hn "WebSearch") eq_refl))).
    left. reflexivity.
Defined.

(** ** prepareContext: what a descriptor says about its event *)

Lemma require_cases A (x : option string) message (k : string -> Result A) :
  (truthy x = false /\ require x message k = Throw (Error message))
  \/ (exists s, x = Some s /\ s <> "" /\ require x message k = k s).
Proof.
  destruct x as [s|]; simpl; [|now left].
  destruct (String.eqb_spec s ""); simpl; [now left|right; eauto].
Qed.

Lemma require_Ok A (x : option string) message (k : string -> Result A) r :
  require x message k = Ok r ->
  exists s, x = Some s /\ s <> "" /\ k s = Ok r.
Proof.
  destruct (require_cases x message k) as [[_ E]|(s & Hx & Hs & E)];
    rewrite E; [discriminate|eauto].
Qed.

Lemma guard_Ok A b message (k : Result A) r :
  guard b message k = Ok r -> b = true /\ k = Ok r.
Proof. destruct b; simpl; [auto|discriminate]. Qed.

Lemma number_Some (b : bool) (n s : string) :
  (if b then Some n else None) = Some s -> b = true /\ s = n.
Proof. destruct b; [intros [= <-]; auto|discriminate]. Qed.

Ltac descriptor_step :=
  match goal with
  | H : require _ _ _ = Ok _ |- _ =>
      apply require_Ok in H; destruct H as (? & ? & ? & H); cbv beta in H
  | H : guard _ _ _ = Ok _ |- _ =>
      apply guard_Ok in H; destruct H as (? & H)
  | H : (if ?b then Some _ else None) = Some _ |- _ =>
      apply number_Some in H; destruct H as [? ?]
  | H : Throw _ = Ok _ |- _ => discriminate H
  | H : Ok _ = Ok _ |- _ => injection H as <-
  | H : negb _ = true |- _ => apply negb_true_iff in H
  | H : (if ?b then _ else _) = Ok _ |- _ => destruct b eqn:?
  | H : (_ =? _) = true |- _ => apply String.eqb_eq in H
  end.

(** What the variant of a returned descriptor tells about the event. *)
Lemma eventData_Ok context baseBranch claudeBranch e :
  eventData context baseBranch claudeBranch = Ok e ->
  eventData_eventName e = Context.eventName context
  /\ eventData_isPR e = Context.isPR context
  /\ eventData_number e = toString (Context.entityNumber context)
  /\ match e with
     | IssueAssignedEvent _ _ _ _ =>
         Context.eventAction context = Some "assigned"
     | IssueLabeledEvent _ _ _ _ =>
         Context.eventAction context = Some "labeled"
     | IssueOpenedEvent _ _ _ =>
         Context.eventAction context = Some "opened"
     | _ => True
     end.
Proof.
  unfold eventData. cbv zeta. intros H.
  repeat descriptor_step; subst; simpl; repeat split; congruence.
Qed.

(** A descriptor that prepareContext returns is about the event it was
    given: it carries the event name of the context, its variant is a
    pull request variant exactly when the entity is a pull request, its
    number is the entity number in decimal, its common fields are those
    of lines 156-169, and the event is one of the five supported ones. *)
Theorem prepareContext_descriptor :
  forall context claudeCommentId baseBranch claudeBranch p,
    prepareContext context claudeCommentId baseBranch claudeBranch = Ok p ->
    let e := PreparedContext.eventData p in
    eventData_eventName e = Context.eventName context
    /\ eventData_isPR e = Context.isPR context
    /\ eventData_number e = toString (Context.entityNumber context)
    /\ PreparedContext.commonFields p
       = commonFields context claudeCommentId claudeBranch
    /\ In (Context.eventName context) supportedEvents.
Proof.
  intros context cid baseBranch claudeBranch p. unfold prepareContext.
  destruct (eventData context baseBranch claudeBranch) as [e|x] eqn:E;
    [|discriminate].
  intros [= <-]. simpl.
  destruct (eventData_Ok _ _ _ E) as (Hname & HPR & Hnum & _).
  repeat split; try assumption.
  rewrite <- Hname. destruct e; simpl; tauto.
Qed.

Lemma prepareContext_descriptor_witness :
  exists p,
    prepareContext Scenario.contextA "12345" None None = Ok p
    /\ eventData_eventName (PreparedContext.eventData p) = "issue_comment"
    /\ eventData_isPR (PreparedContext.eventData p) = true
    /\ eventData_number (PreparedContext.eventData p) = "42".
Proof.
  eexists. split; [reflexivity|].
  pose proof (prepareContext_descriptor Scenario.contextA "12345" None None
                eq_refl) as H.
  simpl in H. tauto.
Defined.

(** The event type that getEventTypeAndContext reads off a descriptor of
    prepareContext is a function of the event name and, for issues, of
    the action; an assigned issue without assignee trigger (a direct
    prompt took its place) gets the trigger context without a name. *)
Theorem getEventTypeAndContext_of_prepareContext :
  forall context claudeCommentId baseBranch claudeBranch p,
    prepareContext context claudeCommentId baseBranch claudeBranch = Ok p ->
    let name := Context.eventName context in
    let action := Context.eventAction context in
    let t := getEventTypeAndContext p in
    let type := EventTypeAndContext.eventType t in
    (type = "REVIEW_COMMENT" <-> name = "pull_request_review_comment")
    /\ (type = "PR_REVIEW" <-> name = "pull_request_review")
    /\ (type = "GENERAL_COMMENT" <-> name = "issue_comment")
    /\ (type = "PULL_REQUEST" <-> name = "pull_request")
    /\ (type = "ISSUE_CREATED" <-> name = "issues" /\ action = Some "opened")
    /\ (type = "ISSUE_LABELED" <-> name = "issues" /\ action = Some "labeled")
    /\ (type = "ISSUE_ASSIGNED"
        <-> name = "issues" /\ action = Some "assigned")
    /\ (type = "ISSUE_ASSIGNED" ->
        truthy (Inputs.assigneeTrigger (Context.inputs context)) = false ->
        EventTypeAndContext.triggerContext t = "issue assigned event").
Proof.
  intros context cid baseBranch claudeBranch p. unfold prepareContext.
  destruct (eventData context baseBranch claudeBranch) as [e|x] eqn:E;
    [|discriminate].
  intros [= <-]. cbv zeta. unfold getEventTypeAndContext. cbn [PreparedContext.eventData].
  destruct (eventData_Ok _ _ _ E) as (Hname & _ & _ & Haction).
  rewrite <- Hname.
  assert (Hassigned :
    forall n b c a, e = IssueAssignedEvent n b c a ->
      a = spread (Inputs.assigneeTrigger (Context.inputs context))).
  { intros n b c a ->. clear Hname Haction. revert E.
    unfold eventData. cbv zeta. intros H.
    repeat descriptor_step; try discriminate. congruence. }
  destruct e; cbn [EventTypeAndContext.eventType
                   EventTypeAndContext.triggerContext eventData_eventName];
    (repeat split; try discriminate; try tauto;
     try (intros [? ?]; congruence); try (intros; congruence)).
  intros _ Hno. rewrite (Hassigned _ _ _ _ eq_refl). unfold spread.
  rewrite Hno. reflexivity.
Qed.

Lemma getEventTypeAndContext_of_prepareContext_witness :
  exists p,
    prepareContext Scenario.contextC' "12345"
                   (Some "main") (Some "claude-issue-101") = Ok p
    /\ EventTypeAndContext.eventType (getEventTypeAndContext p)
       = "ISSUE_ASSIGNED".
Proof.
  eexists. split; [reflexivity|].
  apply (proj2 (proj2 (proj2 (proj2 (proj2 (proj2
           (getEventTypeAndContext_of_prepareContext Scenario.contextC'
              "12345" (Some "main") (Some "claude-issue-101")
              eq_refl))))))).
  split; reflexivity.
Defined.

(** An event outside the five supported ones is refused with a message
    that names it, whatever else the context holds. *)
Theorem prepareContext_unsupported_event :
  forall context claudeCommentId baseBranch claudeBranch,
    ~ In (Context.eventName context) supportedEvents ->
    prepareContext context claudeCommentId baseBranch claudeBranch
    = Throw (Error ("Unsupported event type: " ++ Context.eventName context)).
Proof.
  intros context cid baseBranch claudeBranch Hnot.
  unfold prepareContext, eventData. cbv zeta.
  unfold supportedEvents in Hnot. simpl in Hnot.
  repeat match goal with
  | |- context [Context.eventName context =? ?s] =>
      destruct (String.eqb_spec (Context.eventName context) s) as [E|_];
        [exfalso; apply Hnot; rewrite E; tauto|]
  end.
  reflexivity.
Qed.

Lemma prepareContext_unsupported_event_witness :
  prepareContext Examples.contextPush "12345" None None
  = Throw (Error "Unsupported event type: push").
Proof.
  apply (prepareContext_unsupported_event Examples.contextPush "12345"
                                          None None).
  apply not_In_by_computation. reflexivity.
Defined.

(** ** prepareContext: its failures *)

Lemma require_absent A message (k : string -> Result A) :
  require None message k = Throw (Error message).
Proof. reflexivity. Qed.

Ltac failure_step :=
  match goal with
  | H : require ?x ?m ?k = Throw _ |- _ =>
      destruct (require_cases x m k) as [[? E]|(? & ? & ? & E)];
      rewrite E in H; clear E; cbv beta in H
  | H : guard ?b _ _ = Throw _ |- _ => destruct b eqn:?; cbn [guard] in H
  | H : (if ?b then _ else _) = Throw _ |- _ => destruct b eqn:?
  | H : Ok _ = Throw _ |- _ => discriminate H
  | H : Throw (Error _) = Throw (Error _) |- _ => injection H as <-
  end.

Lemma truthy_toString n : truthy (Some (toString n)) = true.
Proof. apply truthy_Some, toString_nonempty. Qed.

Ltac live_message :=
  first
    [ match goal with
      | H : truthy (Some (toString ?n)) = false |- _ =>
          rewrite truthy_toString in H; discriminate H
      end
    | apply not_In_by_computation; reflexivity
    | let H := fresh in
      intros H; unfold deadGuards in H; simpl in H;
      repeat (destruct H as [H|H]; [discriminate H|]); exact H ].

(** Six of the guards of prepareContext can never fire.  The number of
    the pull request or issue is derived from the same flag that the
    IS_PR guards test afterwards, and the decimal form of a number is
    never empty: a context of the wrong kind is refused by the number
    check that comes first. *)
Theorem prepareContext_dead_guards :
  forall context claudeCommentId baseBranch claudeBranch message,
    prepareContext context claudeCommentId baseBranch claudeBranch
    = Throw (Error message) ->
    ~ In message deadGuards.
Proof.
  intros context cid baseBranch claudeBranch message. unfold prepareContext.
  destruct (eventData context baseBranch claudeBranch) as [e|x] eqn:E;
    [discriminate|].
  intros [= ->]. revert E. unfold eventData. cbv zeta.
  destruct (Context.isPR context); cbn [negb guard];
    rewrite ?require_absent, ?require_present by apply toString_nonempty;
    intros H; repeat failure_step; live_message.
Qed.

(** An issues event on a pull request is refused for its missing issue
    number, not by the IS_PR guard. *)
Lemma prepareContext_dead_guards_witness :
  prepareContext Examples.contextIssueOnPR "12345"
                 (Some "main") (Some "claude-issue-101")
  = Throw (Error "ISSUE_NUMBER is required for issues event")
  /\ ~ In "ISSUE_NUMBER is required for issues event" deadGuards.
Proof.
  split; [reflexivity|].
  exact (prepareContext_dead_guards Examples.contextIssueOnPR "12345"
           (Some "main") (Some "claude-issue-101") eq_refl).
Defined.

(** The dispatch on the action of an issues event, for an issue prepared
    with both branches: labeled needs the label trigger and carries it,
    opened needs nothing, any other action is refused with a message that
    names it, and a missing action is refused as such. *)
Theorem prepareContext_issue_actions :
  forall context claudeCommentId baseBranch claudeBranch b c,
    Context.eventName context = "issues" ->
    Context.isPR context = false ->
    baseBranch = Some b -> b <> "" ->
    claudeBranch = Some c -> c <> "" ->
    let i := Context.inputs context in
    let n := toString (Context.entityNumber context) in
    let run :=
      prepareContext context claudeCommentId baseBranch claudeBranch in
    let ok e :=
      Ok (PreparedContext.mk
            (commonFields context claudeCommentId claudeBranch) e) in
    (Context.eventAction context = Some "labeled" ->
     (truthy (Inputs.labelTrigger i) = false ->
      run = Throw (Error "LABEL_TRIGGER is required for issue labeled event"))
     /\ (forall l, Inputs.labelTrigger i = Some l -> l <> "" ->
                   run = ok (IssueLabeledEvent n b c l)))
    /\ (Context.eventAction context = Some "opened" ->
        run = ok (IssueOpenedEvent n b c))
    /\ (forall a, Context.eventAction context = Some a -> a <> "" ->
                  ~ In a ["assigned"; "labeled"; "opened"] ->
                  run = Throw (Error ("Unsupported issue action: " ++ a)))
    /\ (truthy (Context.eventAction context) = false ->
        run = Throw (Error "GITHUB_EVENT_ACTION is required for issues event")).
Proof.
  intros context cid baseBranch claudeBranch b c Hname HPR Hbase Hb
         Hclaude Hc i n run ok.
  assert (Hrun : forall a, Context.eventAction context = Some a -> a <> "" ->
    run = match
      (if a =? "assigned" then
         if negb (truthy (Inputs.assigneeTrigger i))
            && negb (truthy (Inputs.directPrompt i))
         then Throw (Error "ASSIGNEE_TRIGGER is required for issue assigned event")
         else Ok (IssueAssignedEvent n b c (spread (Inputs.assigneeTrigger i)))
       else if a =? "labeled" then
         require (Inputs.labelTrigger i)
           "LABEL_TRIGGER is required for issue labeled event"
           (fun labelTrigger => Ok (IssueLabeledEvent n b c labelTrigger))
       else if a =? "opened" then Ok (IssueOpenedEvent n b c)
       else Throw (Error ("Unsupported issue action: " ++ a)))
    with Ok e => ok e | Throw x => Throw x end).
  { intros a Ha Hne. unfold run, prepareContext.
    now rewrite (eventData_issues context Hname Ha Hne HPR Hbase Hb
                   Hclaude Hc). }
  split; [|split; [|split]].
  - intros Ha. rewrite (Hrun _ Ha) by discriminate. simpl. split.
    + intros Hl.
      destruct (require_cases (Inputs.labelTrigger i)
                  "LABEL_TRIGGER is required for issue labeled event"
                  (fun l => Ok (IssueLabeledEvent n b c l)))
        as [[_ E]|(s & Hs & Hne & _)]; [now rewrite E|].
      rewrite Hs in Hl. apply truthy_Some in Hne. congruence.
    + intros l Hl Hne. rewrite Hl, require_present by assumption.
      reflexivity.
  - intros Ha. rewrite (Hrun _ Ha) by discriminate. reflexivity.
  - intros a Ha Hne Hnot. rewrite (Hrun _ Ha Hne).
    simpl in Hnot.
    destruct (String.eqb_spec a "assigned") as [->|_]; [tauto|].
    destruct (String.eqb_spec a "labeled") as [->|_]; [tauto|].
    destruct (String.eqb_spec a "opened") as [->|_]; [tauto|].
    reflexivity.
  - intros Hno. unfold run, prepareContext, eventData. cbv zeta.
    rewrite Hname.
    change ("issues" =? "pull_request_review_comment") with false.
    change ("issues" =? "pull_request_review") with false.
    change ("issues" =? "issue_comment") with false.
    change ("issues" =? "issues") with true.
    cbv beta iota.
    destruct (Context.eventAction context) as [a|]; [|reflexivity].
    destruct (String.eqb_spec a "") as [->|Hne]; [reflexivity|].
    apply truthy_Some in Hne. congruence.
Qed.

Lemma prepareContext_issue_actions_witness :
  prepareContext Examples.contextLabeled "12345"
                 (Some "main") (Some "claude-issue-33")
  = Ok (PreparedContext.mk
          (commonFields Examples.contextLabeled "12345"
                        (Some "claude-issue-33"))
          (IssueLabeledEvent "33" "main" "claude-issue-33" "claude"))
  /\ prepareContext Examples.contextClosed "12345"
                    (Some "main") (Some "claude-issue-33")
     = Throw (Error "Unsupported issue action: closed").
Proof.
  assert (Hb : "main" <> "") by discriminate.
  assert (Hc : "claude-issue-33" <> "") by discriminate.
  assert (Hl : "claude" <> "") by discriminate.
  assert (Ha : "closed" <> "") by discriminate.
  split.
  - exact (proj2 (proj1 (prepareContext_issue_actions
             Examples.contextLabeled "12345" eq_refl eq_refl eq_refl Hb
             eq_refl Hc) eq_refl) "claude" eq_refl Hl).
  - apply (proj1 (proj2 (proj2 (prepareContext_issue_actions
             Examples.contextClosed "12345" eq_refl eq_refl eq_refl Hb
             eq_refl Hc))) "closed" eq_refl Ha).
    apply not_In_by_computation. reflexivity.
Defined.

(** A comment with a body: on a pull request it is prepared without any
    branch; on an issue it needs the working branch, which is checked
    first, and the base branch. *)
Theorem prepareContext_issue_comment :
  forall context claudeCommentId baseBranch claudeBranch comment,
    Context.eventName context = "issue_comment" ->
    Context.payload context = Payload.IssueComment comment ->
    Payload.body comment <> "" ->
    let id := toString (Payload.id comment) in
    let n := toString (Context.entityNumber context) in
    let run :=
      prepareContext context claudeCommentId baseBranch claudeBranch in
    let ok e :=
      Ok (PreparedContext.mk
            (commonFields context claudeCommentId claudeBranch) e) in
    (Context.isPR context = true ->
     run = ok (IssueCommentOnPREvent id n (Payload.body comment)
                 (spread claudeBranch) (spread baseBranch)))
    /\ (Context.isPR context = false ->
        (truthy claudeBranch = false ->
         run = Throw (Error "CLAUDE_BRANCH is required for issue_comment event"))
        /\ (truthy claudeBranch = true -> truthy baseBranch = false ->
            run = Throw (Error "BASE_BRANCH is required for issue_comment event"))
        /\ (forall c b, claudeBranch = Some c -> c <> "" ->
                        baseBranch = Some b -> b <> "" ->
                        run = ok (IssueCommentEvent id c b n
                                    (Payload.body comment)))).
Proof.
  intros context cid baseBranch claudeBranch comment Hname Hpay Hbody
         id n run ok.
  assert (Hrun : run =
    match
      (if Context.isPR context then
         Ok (IssueCommentOnPREvent id n (Payload.body comment)
               (spread claudeBranch) (spread baseBranch))
       else
         require claudeBranch
           "CLAUDE_BRANCH is required for issue_comment event"
           (fun c =>
              require baseBranch
                "BASE_BRANCH is required for issue_comment event"
                (fun b => Ok (IssueCommentEvent id c b n
                                (Payload.body comment)))))
    with Ok e => ok e | Throw x => Throw x end).
  { unfold run, prepareContext, eventData. cbv zeta.
    rewrite Hname, Hpay.
    change ("issue_comment" =? "pull_request_review_comment") with false.
    change ("issue_comment" =? "pull_request_review") with false.
    change ("issue_comment" =? "issue_comment") with true.
    cbv beta iota. cbn [commentId commentBody].
    rewrite !require_present by (assumption || apply toString_nonempty).
    destruct (Context.isPR context); cbn [negb].
    - rewrite require_present by apply toString_nonempty. reflexivity.
    - destruct (require_cases claudeBranch
                  "CLAUDE_BRANCH is required for issue_comment event"
                  (fun c => require baseBranch
                     "BASE_BRANCH is required for issue_comment event"
                     (fun b => require
                        (Some (toString (Context.entityNumber context)))
                        "ISSUE_NUMBER is required for issue_comment event for issues"
                        (fun issueNumber =>
                           Ok (IssueCommentEvent
                                 (toString (Payload.id comment)) c b
                                 issueNumber (Payload.body comment))))))
        as [[Hc E]|(c & -> & Hc & E)]; rewrite E; clear E.
      + destruct claudeBranch as [c|]; [|reflexivity].
        simpl in Hc. apply negb_false_iff, String.eqb_eq in Hc.
        subst. reflexivity.
      + rewrite (require_present _ _ Hc).
        destruct baseBranch as [b|]; [|reflexivity].
        destruct (String.eqb_spec b "") as [->|Hb]; [reflexivity|].
        rewrite !(require_present _ _ Hb).
        rewrite require_present by apply toString_nonempty. reflexivity. }
  rewrite Hrun. split.
  - intros ->. reflexivity.
  - intros ->. split; [|split].
    + intros Hc. destruct claudeBranch as [c|]; [|reflexivity].
      simpl in Hc. apply negb_false_iff, String.eqb_eq in Hc.
      subst. reflexivity.
    + intros Hc Hb. destruct claudeBranch as [c|]; [|discriminate].
      apply truthy_Some in Hc. rewrite (require_present _ _ Hc).
      destruct baseBranch as [b|]; [|reflexivity].
      simpl in Hb. apply negb_false_iff, String.eqb_eq in Hb.
      subst. reflexivity.
    + intros c b -> Hc -> Hb.
      rewrite (require_present _ _ Hc), (require_present _ _ Hb).
      reflexivity.
Qed.

Lemma prepareContext_issue_comment_witness :
  prepareContext Scenario.contextA "12345" None None
  = Ok (PreparedContext.mk
          (commonFields Scenario.contextA "12345" None)
          (IssueCommentOnPREvent "9001" "42" "@claude fix" None None))
  /\ prepareContext Examples.contextComment "12345" (Some "main") None
     = Throw (Error "CLAUDE_BRANCH is required for issue_comment event").
Proof.
  assert (H1 : "@claude fix" <> "") by discriminate.
  assert (H2 : "@claude help" <> "") by discriminate.
  split.
  - exact (proj1 (prepareContext_issue_comment Scenario.contextA "12345"
                    None None eq_refl eq_refl H1) eq_refl).
  - exact (proj1 (proj2 (prepareContext_issue_comment
                    Examples.contextComment "12345" (Some "main") None
                    eq_refl eq_refl H2) eq_refl) eq_refl).
Defined.

(** A review of a pull request is prepared only if it has a body: a
    review whose body is null or empty is refused for its missing
    comment body. *)
Theorem prepareContext_review_body :
  forall context claudeCommentId baseBranch claudeBranch review,
    Context.eventName context = "pull_request_review" ->
    Context.payload context = Payload.PullRequestReview review ->
    Context.isPR context = true ->
    let run :=
      prepareContext context claudeCommentId baseBranch claudeBranch in
    (truthy (Payload.review_body review) = false ->
     run = Throw (Error "COMMENT_BODY is required for pull_request_review event"))
    /\ (forall body, Payload.review_body review = Some body -> body <> "" ->
        run = Ok (PreparedContext.mk
                    (commonFields context claudeCommentId claudeBranch)
                    (PullRequestReviewEvent
                       (toString (Context.entityNumber context)) body
                       (spread claudeBranch) (spread baseBranch)))).
Proof.
  intros context cid baseBranch claudeBranch review Hname Hpay HPR run.
  unfold run, prepareContext, eventData. cbv zeta.
  rewrite Hname, Hpay, HPR.
  change ("pull_request_review" =? "pull_request_review_comment") with false.
  change ("pull_request_review" =? "pull_request_review") with true.
  cbv beta iota. cbn [commentBody guard].
  rewrite require_present by apply toString_nonempty.
  split.
  - intros Hno. destruct (Payload.review_body review) as [body|];
      [|reflexivity].
    simpl in Hno. apply negb_false_iff, String.eqb_eq in Hno.
    subst. reflexivity.
  - intros body -> Hne.
    assert (E : or_else (Some body) "" = body).
    { simpl. apply String.eqb_neq in Hne. now rewrite Hne. }
    rewrite E, (require_present _ _ Hne). reflexivity.
Qed.

Lemma prepareContext_review_body_witness :
  prepareContext Examples.contextReview "12345" None None
  = Throw (Error "COMMENT_BODY is required for pull_request_review event").
Proof.
  exact (proj1 (prepareContext_review_body Examples.contextReview "12345"
                  None None eq_refl eq_refl eq_refl) eq_refl).
Defined.

(** A pull_request event is prepared for any action, also for none: the
    action is carried into the descriptor as it came.  On an entity that
    is not a pull request it is refused for the missing number. *)
Theorem prepareContext_pull_request :
  forall context claudeCommentId baseBranch claudeBranch,
    Context.eventName context = "pull_request" ->
    let run :=
      prepareContext context claudeCommentId baseBranch claudeBranch in
    (Context.isPR context = true ->
     run = Ok (PreparedContext.mk
                 (commonFields context claudeCommentId claudeBranch)
                 (PullRequestEvent (Context.eventAction context)
                    (toString (Context.entityNumber context))
                    (spread claudeBranch) (spread baseBranch))))
    /\ (Context.isPR context = false ->
        run = Throw (Error "PR_NUMBER is required for pull_request event")).
Proof.
  intros context cid baseBranch claudeBranch Hname run.
  unfold run, prepareContext, eventData. cbv zeta. rewrite Hname.
  change ("pull_request" =? "pull_request_review_comment") with false.
  change ("pull_request" =? "pull_request_review") with false.
  change ("pull_request" =? "issue_comment") with false.
  change ("pull_request" =? "issues") with false.
  change ("pull_request" =? "pull_request") with true.
  cbv beta iota. split; intros ->; cbn [guard].
  - rewrite require_present by apply toString_nonempty. reflexivity.
  - reflexivity.
Qed.

Lemma prepareContext_pull_request_witness :
  prepareContext Examples.contextPullRequest "12345" None None
  = Ok (PreparedContext.mk
          (commonFields Examples.contextPullRequest "12345" None)
          (PullRequestEvent (Some "synchronize") "42" None None)).
Proof.
  exact (proj1 (prepareContext_pull_request Examples.contextPullRequest
                  "12345" None None eq_refl) eq_refl).
Defined.

(** ** setupBranch: the prompt, and git failures *)

Lemma git_same env env' c w :
  (forall c, git_status env c = git_status env' c) ->
  git env' c w = git env c w.
Proof. intros H. unfold git. now rewrite H. Qed.

Lemma sourceBranch_same env env' prompt context w :
  (forall k, repos_get env k = repos_get env' k) ->
  sourceBranch env' (withPrompt prompt context) w
  = sourceBranch env context w.
Proof.
  intros H. unfold sourceBranch, withPrompt. cbn.
  assert (E : octokit_repos_get env' w = octokit_repos_get env w)
    by (unfold octokit_repos_get; now rewrite H).
  destruct (Inputs.baseBranch (Context.inputs context)) as [b|];
    [destruct (b =? "")|];
    destruct (truthy prompt);
    destruct (truthy (Inputs.baseBranchPrompt (Context.inputs context)));
    auto.
Qed.

(** The base-branch prompt has no influence on setupBranch, and neither
    have the credentials, the branch listing or the completion service:
    two runs that agree on everything else do the same and return the
    same.  The advisor is never consulted. *)
Theorem setupBranch_ignores_prompt :
  forall env env' data context prompt w,
    sameCheckout env env' ->
    setupBranch env' data (withPrompt prompt context) w
    = setupBranch env data context w.
Proof.
  intros env env' data context prompt w (Hgit & Hrepo & Href & Hnow).
  assert (Hcreate : createBranch env' (withPrompt prompt context) w
                    = createBranch env context w).
  { pose proof (@sourceBranch_same env env' prompt context w Hrepo) as Hsame.
    assert (Hname : branchName env' (withPrompt prompt context)
                    = branchName env context).
    { unfold branchName, entityType, withPrompt. cbn. now rewrite Hnow. }
    destruct (sourceBranch env context w) as [[src|e|c] w1] eqn:Hsrc.
    - rewrite (createBranch_resolved _ _ _ Hsame),
        (createBranch_resolved _ _ _ Hsrc).
      rewrite Hname, <- Href, <- Hgit. reflexivity.
    - now rewrite (createBranch_unresolved _ _ _ Hsame),
        (createBranch_unresolved _ _ _ Hsrc).
    - now apply sourceBranch_never_exits in Hsrc. }
  unfold setupBranch.
  change (Context.isPR (withPrompt prompt context))
    with (Context.isPR context).
  destruct (Context.isPR context); [|exact Hcreate].
  destruct (closedOrMerged (contextData_state data)); [exact Hcreate|].
  destruct data as [pr|issue]; [|reflexivity].
  unfold checkoutPR, bind. rewrite (@git_same env env' _ _ Hgit).
  destruct (git env _ w) as [[[]|e|c] w1]; try reflexivity.
  now rewrite (@git_same env env' _ _ Hgit).
Qed.

Lemma setupBranch_ignores_prompt_witness :
  setupBranch Scenario.envD Scenario.issueD
              (withPrompt None Scenario.contextD) init
  = setupBranch Scenario.env Scenario.issueD Scenario.contextD init.
Proof.
  apply setupBranch_ignores_prompt.
  repeat split; intros; reflexivity.
Defined.

(** When git fails on an open pull request, the failure is thrown to the
    caller (the process is not exited): after a failed fetch no checkout
    is attempted, and in either case nothing is returned and no output
    is set. *)
Theorem setupBranch_open_pr_git_failure :
  forall env pr context w,
    Context.isPR context = true ->
    closedOrMerged (GitHubPullRequest.state pr) = false ->
    let head := GitHubPullRequest.headRefName pr in
    let fetch :=
      GitFetch (Z.max (GitHubPullRequest.commits_totalCount pr) 20) head in
    let run := setupBranch env (PullRequestData pr) context w in
    (git_status env fetch = false ->
     run = (Thrown (ShellError fetch),
            mkWorld (shell w ++ [fetch]) (outputs w) (repos_get_calls w)))
    /\ (git_status env fetch = true ->
        git_status env (GitCheckout head) = false ->
        run = (Thrown (ShellError (GitCheckout head)),
               mkWorld (shell w ++ [fetch; GitCheckout head])
                       (outputs w) (repos_get_calls w))).
Proof.
  intros env pr context w HPR Hst head fetch run. unfold run.
  rewrite setupBranch_checkoutPR by assumption.
  unfold checkoutPR, bind, git. fold head. fold fetch. split.
  - intros ->. reflexivity.
  - intros -> H. simpl. rewrite H, <- app_assoc. reflexivity.
Qed.

(** When [git checkout -b] fails on the creation path, the run ends with
    exit code 1: the failed command is the only one issued, nothing is
    returned and no output is set. *)
Theorem createBranch_checkout_failure :
  forall env data context w src w1 sha,
    creationPath data context = true ->
    sourceBranch env context w = (Returned src, w1) ->
    git_getRef env ("heads/" ++ src) = Resolved sha ->
    Inputs.useCommitSigning (Context.inputs context) = false ->
    let nb := newBranch (branchName env context) in
    git_status env (GitCheckoutNew nb) = false ->
    setupBranch env data context w
    = (Exited 1%Z,
       mkWorld (shell w ++ [GitCheckoutNew nb]) (outputs w)
               (repos_get_calls w1)).
Proof.
  intros env data context w src w1 sha Hpath Hsrc Href Hsign nb Hgit.
  rewrite setupBranch_createBranch by assumption.
  rewrite (createBranch_resolved _ _ _ Hsrc), Href, Hsign. fold nb.
  rewrite Hgit. destruct (sourceBranch_frame _ _ _ Hsrc) as [Hsh Hout].
  unfold withGit. now rewrite Hsh, Hout.
Qed.

Lemma setupBranch_open_pr_git_failure_witness :
  setupBranch Examples.envNoGit (PullRequestData Scenario.prA)
              Scenario.contextA init
  = (Thrown (ShellError (GitFetch 20 "feature-x")),
     mkWorld [GitFetch 20 "feature-x"] [] 0).
Proof.
  exact (proj1 (setupBranch_open_pr_git_failure Examples.envNoGit
                  Scenario.prA Scenario.contextA init eq_refl eq_refl)
               eq_refl).
Defined.

Lemma createBranch_checkout_failure_witness :
  setupBranch Examples.envNoGit Scenario.issueD Scenario.contextC init
  = (Exited 1%Z, mkWorld [GitCheckoutNew "claude-issue-101"] [] 1).
Proof.
  exact (createBranch_checkout_failure Examples.envNoGit Scenario.issueD
           Scenario.contextC init (sha := "3f2a9c1e")
           eq_refl eq_refl eq_refl eq_refl eq_refl).
Defined.

(** ** The name of the new branch, continued *)

(** What line 133 achieves: the new name is cut to 50 characters, holds
    no upper-case letter, and is not changed by going through line 133
    once more. *)
Theorem newBranch_sanitized :
  forall name,
    newBranch (newBranch name) = newBranch name
    /\ (String.length (newBranch name) <= 50)%nat
    /\ (forall c, InStr c (newBranch name) -> isUpperCase c = false).
Proof.
  intros name. split; [apply newBranch_idempotent|split].
  - apply newBranch_length.
  - apply newBranch_lower.
Qed.

Lemma InStr_append c a b : InStr c (a ++ b) <-> InStr c a \/ InStr c b.
Proof.
  induction a as [|d a IH]; simpl; [tauto|]. rewrite IH. tauto.
Qed.

Lemma InStr_toLowerCase c s :
  InStr c (toLowerCase s) -> exists d, InStr d s /\ c = toLowerCase_ascii d.
Proof.
  induction s as [|d s IH]; simpl; [tauto|].
  intros [->|H]; [eauto|]. destruct (IH H) as (d' & Hd & ->). eauto.
Qed.

Lemma string_of_uint_digits d c :
  InStr c (NilEmpty.string_of_uint d) ->
  isBranchChar c = true /\ toLowerCase_ascii c = c.
Proof.
  induction d; simpl; try tauto;
    (intros [->|H]; [split; reflexivity|now apply IHd]).
Qed.

Lemma toString_digits n c :
  InStr c (toString n) -> isBranchChar c = true /\ toLowerCase_ascii c = c.
Proof. apply string_of_uint_digits. Qed.

Lemma fill_InStr k c0 s c : InStr c (fill k c0 s) -> c = c0 \/ InStr c s.
Proof. induction k as [|k IH]; simpl; [tauto|]. intros [->|H]; tauto. Qed.

Lemma padStart_digits n c :
  InStr c (padStart 2 "0" (toString n)) ->
  isBranchChar c = true /\ toLowerCase_ascii c = c.
Proof.
  unfold padStart. intros H. apply fill_InStr in H.
  destruct H as [->|H]; [split; reflexivity|now apply toString_digits in H].
Qed.

Lemma timestamp_chars d c :
  InStr c (timestamp d) -> isBranchChar c = true /\ toLowerCase_ascii c = c.
Proof.
  unfold timestamp. rewrite !InStr_append. simpl.
  intros [H|[H|[H|[[->|[]]|[H|H]]]]];
    try (now apply toString_digits in H);
    try (now apply padStart_digits in H).
  split; reflexivity.
Qed.

Lemma entityType_chars context c :
  InStr c (entityType context) ->
  isBranchChar c = true /\ toLowerCase_ascii c = c.
Proof.
  unfold entityType. destruct (Context.isPR context); simpl; intros H;
    repeat (destruct H as [->|H]; [split; reflexivity|]); contradiction.
Qed.

(** The generated part of a branch name is made of lower-case letters,
    digits and hyphens; so is the whole new branch name as soon as the
    lower-cased branch prefix is.  The timestamp suffix, if any, is among
    the generated parts. *)
Theorem newBranch_branch_chars :
  forall env context,
    (forall c, InStr c (Inputs.branchPrefix (Context.inputs context)) ->
               isBranchChar (toLowerCase_ascii c) = true) ->
    forall c, InStr c (newBranch (branchName env context)) ->
              isBranchChar c = true.
Proof.
  intros env context Hprefix c Hc. unfold newBranch in Hc.
  apply substring_InStr, InStr_toLowerCase in Hc.
  destruct Hc as (d & Hd & ->).
  assert (Hgen : forall x, isBranchChar x = true /\ toLowerCase_ascii x = x ->
                           isBranchChar (toLowerCase_ascii x) = true).
  { intros x [H1 H2]. now rewrite H2. }
  unfold branchName in Hd.
  destruct (Inputs.useTimestampSuffix (Context.inputs context));
    rewrite !InStr_append in Hd; simpl in Hd.
  - destruct Hd as [H|[H|[[->|[]]|[H|[[->|[]]|H]]]]];
      [now apply Hprefix
      |now apply Hgen, (entityType_chars context)
      |reflexivity
      |now apply Hgen, (toString_digits (Context.entityNumber context))
      |reflexivity
      |now apply Hgen, (timestamp_chars (now env))].
  - destruct Hd as [H|[H|[[->|[]]|H]]];
      [now apply Hprefix
      |now apply Hgen, (entityType_chars context)
      |reflexivity
      |now apply Hgen, (toString_digits (Context.entityNumber context))].
Qed.

Lemma newBranch_branch_chars_witness :
  forallb isBranchChar
    (list_ascii_of_string
       (newBranch (branchName Scenario.env Scenario.contextB)))
  = true.
Proof.
  apply forallb_forall. intros c Hc.
  apply (newBranch_branch_chars Scenario.env Scenario.contextB).
  - intros d H. simpl in H.
    repeat (destruct H as [->|H]; [reflexivity|]). contradiction.
  - simpl in Hc.
    repeat (destruct Hc as [<-|Hc]; [simpl; auto 20|]). contradiction.
Defined.


Lemma substring_append m a b :
  (m <= String.length a)%nat -> substring 0 m (a ++ b) = substring 0 m a.
Proof.
  revert a. induction m as [|m IH]; intros [|c a]; simpl; try reflexivity.
  - destruct b; reflexivity.
  - lia.
  - intros H. rewrite IH by lia. reflexivity.
Qed.

Lemma toLowerCase_append a b :
  toLowerCase (a ++ b) = (toLowerCase a ++ toLowerCase b)%string.
Proof. induction a as [|c a IH]; simpl; [reflexivity|now rewrite IH]. Qed.

Lemma toLowerCase_length s : String.length (toLowerCase s) = String.length s.
Proof. induction s as [|c s IH]; simpl; [reflexivity|now rewrite IH]. Qed.






(** A branch prefix of 50 characters or more uses up the whole name: the
    new branch is the lower-cased prefix cut to 50 characters, whatever
    the entity, its number and the time are, and all entities share it. *)
Theorem newBranch_long_prefix :
  forall env context,
    (50 <= String.length (Inputs.branchPrefix (Context.inputs context)))%nat ->
    newBranch (branchName env context)
    = substring 0 50
        (toLowerCase (Inputs.branchPrefix (Context.inputs context))).
Proof.
  intros env context Hlen. unfold newBranch, branchName.
  destruct (Inputs.useTimestampSuffix (Context.inputs context));
    rewrite toLowerCase_append;
    apply substring_append; now rewrite toLowerCase_length.
Qed.

Lemma newBranch_long_prefix_witness :
  newBranch (branchName Scenario.env Examples.contextLong5)
  = "automation/assistant/generated-branches/for-issue/"
  /\ newBranch (branchName Scenario.env Examples.contextLong6)
     = "automation/assistant/generated-branches/for-issue/".
Proof.
  split.
  - apply (newBranch_long_prefix Scenario.env Examples.contextLong5).
    vm_compute. lia.
  - apply (newBranch_long_prefix Scenario.env Examples.contextLong6).
    vm_compute. lia.
Defined.

(** ** The advisor, continued *)

(** With a credential at hand (either of the two), the advisor adopts the
    text of the first content block, trimmed of white space, when that is
    one of the listed branches; it has then asked repos.get once. *)
Theorem determineBranchWithAI_accepts_listed :
  forall env data context prompt w d branches text rest,
    authenticated env = true ->
    repos_get env (repos_get_calls w) = Resolved d ->
    repos_listBranches env = Resolved branches ->
    messages_create env (systemPrompt context prompt d branches)
                    (userPrompt data context)
    = Resolved (TextBlock text :: rest) ->
    In (trim text) branches ->
    determineBranchWithAI env data context prompt w
    = (Returned (trim text), bump w).
Proof.
  intros env data context prompt w d branches text rest
         Hauth Hd Hl Hc Hin.
  rewrite determineBranchWithAI_authenticated by assumption.
  rewrite Hd, Hl, Hc. cbn [suggestion].
  apply includes_In in Hin. now rewrite Hin.
Qed.

Lemma determineBranchWithAI_accepts_listed_witness :
  determineBranchWithAI Examples.envPadded Scenario.issueD Scenario.contextD
    "Use the release branch for hotfixes" init
  = (Returned "develop", bump init).
Proof.
  apply (determineBranchWithAI_accepts_listed Examples.envPadded
           Scenario.issueD Scenario.contextD
           "Use the release branch for hotfixes" init
           (d := "main") (branches := ["develop"; "main"])
           (text := " develop" ++ LF) (rest := []));
    try reflexivity.
  left. reflexivity.
Defined.

(** The advisor issues no git command and sets no output.  It asks
    repos.get once or twice: the second call is the fallback, and every
    run that fails has made it. *)
Theorem determineBranchWithAI_footprint :
  forall env data context prompt w,
    let run := determineBranchWithAI env data context prompt w in
    shell (snd run) = shell w
    /\ outputs (snd run) = outputs w
    /\ (repos_get_calls (snd run) = S (repos_get_calls w)
        \/ repos_get_calls (snd run) = S (S (repos_get_calls w)))
    /\ (forall e, fst run = Thrown e ->
                  repos_get_calls (snd run) = S (S (repos_get_calls w))).
Proof.
  intros env data context prompt w run.
  assert (Hfb :
    let r := octokit_repos_get env (bump w) in
    shell (snd r) = shell w /\ outputs (snd r) = outputs w
    /\ repos_get_calls (snd r) = S (S (repos_get_calls w))).
  { destruct (octokit_repos_get_cases env (bump w))
      as [(d & _ & ->)|(e & _ & ->)]; simpl; auto. }
  assert (Hone : forall s : string,
    let r := (Returned s, bump w) in
    shell (snd r) = shell w /\ outputs (snd r) = outputs w
    /\ (repos_get_calls (snd r) = S (repos_get_calls w)
        \/ repos_get_calls (snd r) = S (S (repos_get_calls w)))
    /\ (forall e, fst r = Thrown e ->
                  repos_get_calls (snd r) = S (S (repos_get_calls w)))).
  { intros s. simpl. repeat split; auto. discriminate. }
  assert (Htwo :
    let r := octokit_repos_get env (bump w) in
    shell (snd r) = shell w /\ outputs (snd r) = outputs w
    /\ (repos_get_calls (snd r) = S (repos_get_calls w)
        \/ repos_get_calls (snd r) = S (S (repos_get_calls w)))
    /\ (forall e, fst r = Thrown e ->
                  repos_get_calls (snd r) = S (S (repos_get_calls w)))).
  { cbv zeta in *. tauto. }
  unfold run. destruct (authenticated env) eqn:Hauth.
  - rewrite determineBranchWithAI_authenticated by assumption.
    destruct (repos_get env (repos_get_calls w)) as [d|e]; [|exact Htwo].
    destruct (repos_listBranches env) as [branches|e]; [|exact Htwo].
    destruct (messages_create env _ _) as [content|e]; [|exact Htwo].
    destruct (includes branches (suggestion content d)); apply Hone.
  - rewrite determineBranchWithAI_unauthenticated by assumption.
    destruct (repos_get env (repos_get_calls w)) as [d|e];
      [apply Hone|exact Htwo].
Qed.

(** ** createPrompt *)

(** Every refusal of prepareContext has something to say. *)
Lemma prepareContext_message_nonempty context claudeCommentId baseBranch
      claudeBranch message :
  prepareContext context claudeCommentId baseBranch claudeBranch
  = Throw (Error message) ->
  message <> "".
Proof.
  unfold prepareContext.
  destruct (eventData context baseBranch claudeBranch) as [e|x] eqn:E;
    [discriminate|].
  intros [= ->]. revert E. unfold eventData. cbv zeta.
  intros H; repeat failure_step; discriminate.
Qed.

(** A context that prepareContext refuses ends createPrompt with exit
    code 1 and the message of the refusal reported as the failure;
    no directory is made, no file written and no variable exported. *)
Theorem createPrompt_validation_failure :
  forall (penv : PromptEnv) (FetchDataResult : Type)
         (generatePrompt :
            PreparedContext.t -> FetchDataResult -> bool -> bool -> string ->
            Result string)
         claudeCommentId baseBranch claudeBranch githubData context
         inputs w message,
    prepareContext context (toString claudeCommentId) baseBranch claudeBranch
    = Throw (Error message) ->
    createPrompt penv generatePrompt claudeCommentId baseBranch claudeBranch
                 githubData context inputs w
    = (Exited 1%Z,
       mkPromptWorld (directories w) (files w) (variables w)
         (failures w
          ++ [("Create prompt failed with error: Error: " ++ message)%string])).
Proof.
  intros penv FetchDataResult generatePrompt
         cid baseBranch claudeBranch githubData context inputs w message H.
  unfold createPrompt. rewrite H. unfold createPrompt_failed, String_error.
  apply prepareContext_message_nonempty, String.eqb_neq in H.
  now rewrite H.
Qed.

(** No error leaves createPrompt.  Either it returns, and then the prompt
    that generatePrompt produced has been written to the prompt file and
    both tool lists have been exported, in this order and with nothing
    reported as failed; or it exits with code 1, and then exactly one
    failure has been reported and no variable has been exported. *)
Theorem createPrompt_outcome :
  forall (penv : PromptEnv) (FetchDataResult : Type)
         (generatePrompt :
            PreparedContext.t -> FetchDataResult -> bool -> bool -> string ->
            Result string)
         claudeCommentId baseBranch claudeBranch githubData context inputs w,
    let r := createPrompt penv generatePrompt claudeCommentId baseBranch
                          claudeBranch githubData context inputs w in
    let i := Context.inputs context in
    (fst r = Returned tt
     /\ (exists p content,
            prepareContext context (toString claudeCommentId)
                           baseBranch claudeBranch = Ok p
            /\ generatePrompt p githubData (Inputs.useCommitSigning i)
                 (RunInputs.createPullRequest inputs)
                 (RunInputs.runId inputs) = Ok content
            /\ files (snd r) = files w ++ [(promptFile penv, content)])
     /\ directories (snd r) = directories w ++ [promptDirectory penv]
     /\ (exists allowed,
            variables (snd r)
            = variables w
              ++ [("ALLOWED_TOOLS", allowed);
                  ("DISALLOWED_TOOLS",
                   buildDisallowedToolsString
                     (Some (Inputs.disallowedTools i))
                     (Some (Inputs.allowedTools i)))])
     /\ failures (snd r) = failures w)
    \/ (fst r = Exited 1%Z
        /\ files (snd r) = files w
        /\ variables (snd r) = variables w
        /\ exists message, failures (snd r) = failures w ++ [message]).
Proof.
  intros penv FetchDataResult generatePrompt
         cid baseBranch claudeBranch githubData context inputs w r i.
  unfold r, createPrompt.
  destruct (prepareContext context (toString cid) baseBranch claudeBranch)
    as [p|e] eqn:Hp; [|right; simpl; eauto 6].
  destruct (mkdir penv (promptDirectory penv)) as [[]|e];
    [|right; simpl; eauto 6].
  destruct (generatePrompt p githubData _ _ _) as [content|e] eqn:Hg;
    [|right; simpl; eauto 6].
  destruct (writeFile penv (promptFile penv) content) as [[]|e];
    [|right; simpl; eauto 6].
  left. simpl. repeat split; eauto.
Qed.

(** The CI tools reach the exported allowed-tools list only for a pull
    request in a run that may read the actions of the repository, or
    when the caller lists them himself. *)
Theorem createPrompt_ci_tools :
  forall (penv : PromptEnv) (FetchDataResult : Type)
         (generatePrompt :
            PreparedContext.t -> FetchDataResult -> bool -> bool -> string ->
            Result string)
         claudeCommentId baseBranch claudeBranch githubData context inputs w
         tool,
    let r := createPrompt penv generatePrompt claudeCommentId baseBranch
                          claudeBranch githubData context inputs w in
    let i := Context.inputs context in
    fst r = Returned tt ->
    (forall c, In c (Inputs.allowedTools i) -> ~ InStr ","%char c) ->
    In tool ["mcp__github_ci__get_ci_status";
             "mcp__github_ci__get_workflow_run_details";
             "mcp__github_ci__download_job_log"] ->
    exists allowed rest,
      variables (snd r) = variables w ++ ("ALLOWED_TOOLS", allowed) :: rest
      /\ (In tool (split "," allowed)
          <-> (RunInputs.additionalPermissions inputs "actions" = Some "read"
               /\ Context.isPR context = true)
              \/ In tool (Inputs.allowedTools i)).
Proof.
  intros penv FetchDataResult generatePrompt
         cid baseBranch claudeBranch githubData context inputs w tool r i
         Hret Hplain Htool.
  unfold r, createPrompt in *.
  destruct (prepareContext context (toString cid) baseBranch claudeBranch)
    as [p|e]; [|discriminate].
  destruct (mkdir penv (promptDirectory penv)) as [[]|e]; [|discriminate].
  destruct (generatePrompt p githubData _ _ _) as [content|e];
    [|discriminate].
  destruct (writeFile penv (promptFile penv) content) as [[]|e];
    [|discriminate].
  unfold exportTools. cbn [snd variables]. fold i.
  eexists. eexists. split; [reflexivity|].
  rewrite (proj1 (buildAllowedToolsString_gating
                    (Some (Inputs.allowedTools i)) _ _ _ Hplain) tool Htool).
  cbn [tools].
  destruct (RunInputs.additionalPermissions inputs "actions") as [perm|].
  - destruct (String.eqb_spec perm "read") as [->|Hne];
      destruct (Context.isPR context); simpl;
      intuition congruence.
  - simpl. intuition congruence.
Qed.

Lemma createPrompt_validation_failure_witness :
  createPrompt Examples.penv Examples.somePrompt 12345 None None
               Scenario.issueD Scenario.contextC Examples.runInputs
               Examples.nothing
  = (Exited 1%Z,
     mkPromptWorld [] [] []
       ["Create prompt failed with error: Error: BASE_BRANCH is required for issues event"]).
Proof.
  exact (createPrompt_validation_failure Examples.penv Examples.somePrompt
           12345 None None Scenario.issueD Scenario.contextC
           Examples.runInputs Examples.nothing eq_refl).
Defined.

Lemma createPrompt_ci_tools_witness :
  exists allowed rest,
    variables (snd (createPrompt Examples.penv Examples.somePrompt 12345
                      (Some "main") (Some "claude-issue-33")
                      Scenario.issueD Examples.contextLabeled
                      Examples.runInputs Examples.nothing))
    = ("ALLOWED_TOOLS", allowed) :: rest
    /\ ~ In "mcp__github_ci__get_ci_status" (split "," allowed).
Proof.
  destruct (createPrompt_ci_tools Examples.penv Examples.somePrompt 12345
              (Some "main") (Some "claude-issue-33")
              Scenario.issueD Examples.contextLabeled
              Examples.runInputs Examples.nothing
              (tool := "mcp__github_ci__get_ci_status")
              eq_refl (fun c (H : In c []) => match H with end)
              (or_introl eq_refl))
    as (allowed & rest & Hv & Hiff).
  exists allowed, rest. split; [exact Hv|].
  intros H. apply Hiff in H. destruct H as [[_ H]|[]]. discriminate H.
Defined.

(** ** The timestamp *)







